(** * prediction-sdk: the Safe proxy-address derivation and its helpers

    A shallow embedding of [packages/polymarket/src/safe.ts] (with the
    [utils], [config] and [types] modules it imports) and of the approval
    flow of [src/polymarket.ts], followed by the properties the
    specification states about them.

    JavaScript strings are modelled by [string]: a character is one code
    unit in the Latin-1 range, which covers every hexadecimal address,
    selector and error identifier the SDK handles.  Promises are modelled
    by a state-and-exception monad over the outside world. *)

From Stdlib Require Import String Ascii ZArith NArith List Lia Bool DecimalString.
From ExtLib Require Import Structures.Monad Structures.MonadExc.
From ExtLib Require Import Data.Monads.StateMonad Data.Monads.EitherMonad.
Import ListNotations.
Import MonadNotation.

Local Open Scope string_scope.
Local Open Scope monad_scope.

(* ===================================================================== *)
(** ** The JavaScript string primitives the SDK calls *)
(* ===================================================================== *)

Module JsString.

(** [c.toLowerCase()] for one Latin-1 code unit: [A-Z] and the accented
    capitals U+00C0..U+00DE (all but the multiplication sign U+00D7) move
    up by 32, every other code unit is kept. *)
Definition toLowerCase_char (c : ascii) : ascii :=
  let n := N_of_ascii c in
  if (((65 <=? n) && (n <=? 90))
      || ((192 <=? n) && (n <=? 222) && negb (n =? 215)))%N
  then ascii_of_N (n + 32) else c.

(** [s.toLowerCase()]. *)
Fixpoint toLowerCase (s : string) : string :=
  match s with
  | EmptyString => EmptyString
  | String c s' => String (toLowerCase_char c) (toLowerCase s')
  end.

(** [s.replace(/^0x/, "")]: the pattern is anchored and case-sensitive,
    so exactly a leading ["0x"] is removed, once. *)
Definition replace_leading_0x (s : string) : string :=
  match s with
  | String "0" (String "x" rest) => rest
  | _ => s
  end.

(** The filler of [padStart]: [padString] repeated and cut to [n]
    characters ([cur] is what is left of the current repetition). *)
Fixpoint filler (n : nat) (cur padString : string) : string :=
  match n with
  | O => EmptyString
  | S n' =>
      match cur with
      | String c cur' => String c (filler n' cur' padString)
      | EmptyString =>
          match padString with
          | String c pad' => String c (filler n' pad' padString)
          | EmptyString => EmptyString
          end
      end
  end.

(** [s.padStart(targetLength, padString)]: a string already long enough
    (or an empty [padString]) is returned unchanged. *)
Definition padStart (s : string) (targetLength : nat) (padString : string)
  : string :=
  if (targetLength <=? String.length s)%nat then s
  else filler (targetLength - String.length s) padString padString ++ s.

(** The relative index of [slice]: negative indices count from the end,
    and the result is clamped to [0 .. len]. *)
Definition relative_index (len i : Z) : Z :=
  if (i <? 0)%Z then Z.max (len + i) 0 else Z.min i len.

(** [s.slice(start, end)]; [end_ = None] is the one-argument call. *)
Definition slice (s : string) (start : Z) (end_ : option Z) : string :=
  let len := Z.of_nat (String.length s) in
  let from := relative_index len start in
  let to := match end_ with
            | None => len
            | Some e => relative_index len e
            end in
  substring (Z.to_nat from) (Z.to_nat (Z.max (to - from) 0)) s.

(** Rendering of an integer-valued number in a template literal or by
    [JSON.stringify]: its decimal numeral.  This is what JavaScript prints
    for the safe integers, those of magnitude at most 2^53 - 1; beyond
    them a number is a rounded double, printed by its shortest digits and
    in exponent notation from 10^21 on, so every statement that reads a
    rendered number bounds it by 9007199254740991. *)
Definition Number_toString (z : Z) : string :=
  NilZero.string_of_int (Z.to_int z).

(** Truthiness of a string: only the empty string is falsy. *)
Definition truthy (s : string) : bool :=
  match s with EmptyString => false | _ => true end.

(** Hexadecimal digits, either case. *)
Definition isHexDigit (c : ascii) : bool :=
  let n := N_of_ascii c in
  (((48 <=? n) && (n <=? 57)) || ((97 <=? n) && (n <=? 102))
   || ((65 <=? n) && (n <=? 70)))%N.

Fixpoint isHexString (s : string) : bool :=
  match s with
  | EmptyString => true
  | String c s' => isHexDigit c && isHexString s'
  end.

(** A 20-byte address body: forty hexadecimal digits. *)
Definition isAddressBody (s : string) : bool :=
  (String.length s =? 40)%nat && isHexString s.

(** The external representation of an address: ["0x"] and forty
    hexadecimal digits. *)
Definition isAddress (s : string) : bool :=
  match s with
  | String "0" (String "x" body) => isAddressBody body
  | _ => false
  end.

End JsString.

(* ===================================================================== *)
(** ** JSON values and [JSON.stringify] *)
(* ===================================================================== *)

Module JSON.
Import JsString.

#[warnings="-register-all"] Inductive Json : Type :=
| JNull
| JBool (b : bool)
| JNumber (z : Z)
| JString (s : string)
| JArray (items : list Json)
| JObject (members : list (string * Json)).

Definition dquote : ascii := ascii_of_N 34.
Definition backslash : ascii := ascii_of_N 92.

Definition hexDigit (n : N) : ascii :=
  if (n <? 10)%N then ascii_of_N (48 + n) else ascii_of_N (87 + n).

(** One code unit inside a quoted JSON string: the quote, the backslash
    and the control characters are escaped, the rest is copied. *)
Definition quoteCodeUnit (c : ascii) : string :=
  let n := N_of_ascii c in
  let esc (x : ascii) := String backslash (String x EmptyString) in
  if (n =? 8)%N then esc "b"%char
  else if (n =? 9)%N then esc "t"%char
  else if (n =? 10)%N then esc "n"%char
  else if (n =? 12)%N then esc "f"%char
  else if (n =? 13)%N then esc "r"%char
  else if (n =? 34)%N then esc dquote
  else if (n =? 92)%N then esc backslash
  else if (n <? 32)%N then
    String backslash
      ("u00" ++ String (hexDigit (n / 16)) (String (hexDigit (n mod 16))
                                              EmptyString))
  else String c EmptyString.

Fixpoint quoteBody (s : string) : string :=
  match s with
  | EmptyString => EmptyString
  | String c s' => quoteCodeUnit c ++ quoteBody s'
  end.

Definition quote (s : string) : string :=
  String dquote (quoteBody s ++ String dquote EmptyString).

(** [JSON.stringify(value)] without indentation: members and items are
    written in order, separated by commas. *)
Fixpoint stringify (j : Json) : string :=
  match j with
  | JNull => "null"
  | JBool true => "true"
  | JBool false => "false"
  | JNumber z => Number_toString z
  | JString s => quote s
  | JArray items =>
      "[" ++
      (fix elements (l : list Json) : string :=
         match l with
         | [] => EmptyString
         | x :: l' =>
             match l' with
             | [] => stringify x
             | _ :: _ => stringify x ++ "," ++ elements l'
             end
         end) items
      ++ "]"
  | JObject members =>
      "{" ++
      (fix properties (l : list (string * Json)) : string :=
         match l with
         | [] => EmptyString
         | (k, v) :: l' =>
             match l' with
             | [] => quote k ++ ":" ++ stringify v
             | _ :: _ => quote k ++ ":" ++ stringify v ++ "," ++ properties l'
             end
         end) members
      ++ "}"
  end.

End JSON.

(* ===================================================================== *)
(** ** types.ts *)
(* ===================================================================== *)

Module types.

Record JsonRpcError : Type := {
  code : Z;
  message : string;
  error_data : option JSON.Json
}.

(** Every field is optional; [None] is an absent field. *)
Record JsonRpcResponse : Type := {
  response_jsonrpc : option string;
  result : option string;
  error : option JsonRpcError;
  response_id : option Z
}.

Record EthCallObject : Type := {
  to : string;
  data : string
}.

(** The pair [[{to, data}, "latest"]]. *)
Definition EthCallParams : Type := (EthCallObject * string)%type.

Record JsonRpcRequest : Type := {
  jsonrpc : string;
  method : string;
  params : EthCallParams;
  id : Z
}.

(** The JSON value of a request record: its own properties in the order
    the object literal lists them. *)
Definition JsonRpcRequest_toJson (r : JsonRpcRequest) : JSON.Json :=
  JSON.JObject
    [ ("jsonrpc", JSON.JString (jsonrpc r));
      ("method", JSON.JString (method r));
      ("params",
        JSON.JArray
          [ JSON.JObject [ ("to", JSON.JString (to (fst (params r))));
                           ("data", JSON.JString (data (fst (params r)))) ];
            JSON.JString (snd (params r)) ]);
      ("id", JSON.JNumber (id r)) ].

End types.

(* ===================================================================== *)
(** ** config.ts *)
(* ===================================================================== *)

Module config.

Definition polymarketExchange : string :=
  "0x4bFb41d5B3570DeFd03C39a9A4D8dE6Bd8B8982E".

Definition CTF_ABI : list string :=
  [ "function setApprovalForAll(address operator, bool approved) external";
    "function isApprovedForAll(address account, address operator) view returns (bool)" ].

Definition SAFE_PROXY_FACTORY_ADDRESS : string :=
  "0xaacFeEa03eb1561C4e67d661e40682Bd20E3541b".

Definition COMPUTE_PROXY_ADDRESS_FUNCTION_SIGNATURE : string :=
  "computeProxyAddress(address)".

Module ERROR_CODES.
Definition RPC_REQUEST_FAILED : string := "RPC_REQUEST_FAILED".
Definition RPC_RESPONSE_EMPTY : string := "RPC_RESPONSE_EMPTY".
Definition RPC_ERROR : string := "RPC_ERROR".
Definition RPC_INVALID_RESULT : string := "RPC_INVALID_RESULT".
End ERROR_CODES.

End config.

(* ===================================================================== *)
(** ** The host: [fetch], the ethers provider and contract bindings *)
(* ===================================================================== *)

Module Host.

(** A thrown [Error] with its message. *)
Inductive JsError : Type := Error (message : string).

Record RequestInit : Type := {
  init_method : string;
  headers : list (string * string);
  body : string
}.

(** What the SDK reads of a [fetch] response: the [ok] flag and the
    outcome of [json()], which rejects when the body is not JSON and
    otherwise resolves to the parsed value, read at the type
    [JsonRpcResponse] the SDK casts it to.  A body that parses to
    something of another shape (null, or fields of other types) has no
    value here: the statements below speak of responses of the declared
    type only. *)
Record Response : Type := {
  ok : bool;
  json : JsError + types.JsonRpcResponse
}.

Record JsonRpcProvider : Type := {
  provider_url : string;
  staticNetwork : option string
}.

Record Wallet : Type := { address : string }.

Record Contract : Type := {
  contract_address : string;
  abi : list string;
  contract_signer : Wallet
}.

Record FeeData : Type := { gasPrice : option Z }.

Record Overrides : Type := { override_gasPrice : Z; gasLimit : Z }.

Record TransactionResponse : Type := { hash : string }.

Record TransactionReceipt : Type := { status : Z }.

(** The calls that leave the SDK, as they are issued. *)
Inductive Call : Type :=
| Call_fetch (url : string) (init : RequestInit)
| Call_getCode (provider : JsonRpcProvider) (address : string)
| Call_getFeeData (provider : JsonRpcProvider)
| Call_setApprovalForAll (contract : Contract) (operator : string)
    (approved : bool) (overrides : Overrides)
| Call_wait (tx : TransactionResponse)
| Call_isApprovedForAll (contract : Contract) (account operator : string).

(** The outside world with state [W]: every call settles (rejected on
    the left, fulfilled on the right) and may change the world. *)
Class World (W : Type) : Type := {
  fetch : string -> RequestInit -> W -> (JsError + Response) * W;
  getCode : JsonRpcProvider -> string -> W -> (JsError + string) * W;
  getFeeData : JsonRpcProvider -> W -> (JsError + FeeData) * W;
  setApprovalForAll :
    Contract -> string -> bool -> Overrides ->
    W -> (JsError + TransactionResponse) * W;
  wait : TransactionResponse -> W -> (JsError + TransactionReceipt) * W;
  isApprovedForAll :
    Contract -> string -> string -> W -> (JsError + bool) * W
}.

Section Promise.
Context {W : Type}.

(** The state a computation threads: the world and the log of calls. *)
Record Outside : Type := { world : W; calls : list Call }.

(** An [async] computation: it settles to an error or a value and
    leaves the outside in a new state either way. *)
Definition Promise : Type -> Type := eitherT JsError (state Outside).

Definition run {A : Type} (p : Promise A) (o : Outside)
  : (JsError + A) * Outside :=
  runState (unEitherT p) o.

(** Awaiting a call to the host: log it, let the world answer. *)
Definition request {A : Type} (c : Call)
  (answer : W -> (JsError + A) * W) : Promise A :=
  mkEitherT (mkState (fun o =>
    let (r, w') := answer (world o) in
    (r, {| world := w'; calls := calls o ++ [c] |}))).

(** Awaiting a promise that is already settled. *)
Definition settled {A : Type} (r : JsError + A) : Promise A :=
  mkEitherT (mkState (fun o => (r, o))).

End Promise.
Arguments Outside : clear implicits.
Arguments Promise : clear implicits.

End Host.

(* ===================================================================== *)
(** ** utils.ts *)
(* ===================================================================== *)

Module utils.
Import JsString.

Section Selector.
(** [ethers.id]: the keccak-256 hash of the UTF-8 bytes of a string,
    as a ["0x"]-prefixed hexadecimal string (vendor library). *)
Variable ethers_id : string -> string.

(** Returns the 4-byte selector for an ABI function signature. *)
Definition getFunctionSelector (functionSignature : string) : string :=
  let hash := ethers_id functionSignature in
  slice hash 0 (Some 10%Z).
End Selector.

(** ABI-encodes an address as a 32-byte hex string (no 0x prefix). *)
Definition encodeAddress (address : string) : string :=
  let cleanAddress := replace_leading_0x (toLowerCase address) in
  padStart cleanAddress 64 "0".

(** Decodes the last 20 bytes of a hex result into an address. *)
Definition decodeAddress (hexResult : string) : string :=
  let cleanHex := replace_leading_0x hexResult in
  let addressHex := slice cleanHex (-40) None in
  "0x" ++ addressHex.

(** The provider is built for the fixed network, without probing. *)
Definition getJsonRpcProvider (rpcUrl : string) : Host.JsonRpcProvider :=
  {| Host.provider_url := rpcUrl; Host.staticNetwork := Some "matic" |}.

End utils.

(* ===================================================================== *)
(** ** safe.ts *)
(* ===================================================================== *)

Module safe.
Import JsString types config Host utils.

(** The optional third argument of [getSafeProxyAddress]. *)
Record Options : Type := {
  safeProxyFactoryAddress : option string;
  functionSignature : option string
}.

(** [options?.field]: absent options have no fields. *)
Definition optional {A : Type} (options : option Options)
  (field : Options -> option A) : option A :=
  match options with
  | Some o => field o
  | None => None
  end.

(** [value || fallback] on an optional string: the fallback is taken
    for every falsy value, that is for [undefined] and for the empty
    string. *)
Definition or_else (value : option string) (fallback : string) : string :=
  match value with
  | Some v => if truthy v then v else fallback
  | None => fallback
  end.

Section WithWorld.
Context {W : Type} {host : World W}.
Variable ethers_id : string -> string.

(** Sends a JSON-RPC request and normalizes transport-level errors. *)
Definition postJsonRpc (rpcUrl : string) (rpcRequest : JsonRpcRequest)
  : Promise W JsonRpcResponse :=
  let init :=
    {| init_method := "POST";
       headers := [("Content-Type", "application/json")];
       body := JSON.stringify (JsonRpcRequest_toJson rpcRequest) |} in
  response <- request (Call_fetch rpcUrl init) (fetch rpcUrl init) ;;
  if negb (ok response) then
    raise (Error ERROR_CODES.RPC_REQUEST_FAILED)
  else
    catch (settled (json response))
          (fun _ => raise (Error ERROR_CODES.RPC_RESPONSE_EMPTY)).

(** Determines if a wallet address is a Gnosis Safe: the address is a
    contract when its code is not ["0x"]. *)
Definition isGnosisSafe (address rpcUrl : string) : Promise W bool :=
  let provider := getJsonRpcProvider rpcUrl in
  code <- request (Call_getCode provider address)
                  (getCode provider address) ;;
  ret (negb (code =? "0x")).

(** Computes the Gnosis Safe proxy address for a given owner address. *)
Definition getSafeProxyAddress (rpcUrl walletAddress : string)
  (options : option Options) : Promise W string :=
  let functionSignature :=
    or_else (optional options functionSignature)
            COMPUTE_PROXY_ADDRESS_FUNCTION_SIGNATURE in
  let safeProxyFactoryAddress :=
    or_else (optional options safeProxyFactoryAddress)
            SAFE_PROXY_FACTORY_ADDRESS in
  let functionSelector := getFunctionSelector ethers_id functionSignature in
  let encodedAddress := encodeAddress walletAddress in
  let data := functionSelector ++ encodedAddress in
  let rpcRequest :=
    {| jsonrpc := "2.0";
       method := "eth_call";
       params := ({| to := safeProxyFactoryAddress; data := data |},
                  "latest");
       id := 1 |} in
  rpcResponse <- postJsonRpc rpcUrl rpcRequest ;;
  match error rpcResponse with
  | Some e =>
      raise (Error (ERROR_CODES.RPC_ERROR ++ ":" ++ Number_toString (code e)))
  | None =>
      (* [!hexResult] holds for an absent and for an empty result *)
      match result rpcResponse with
      | Some hexResult =>
          if negb (truthy hexResult) then
            raise (Error ERROR_CODES.RPC_INVALID_RESULT)
          else ret (decodeAddress hexResult)
      | None => raise (Error ERROR_CODES.RPC_INVALID_RESULT)
      end
  end.

End WithWorld.

End safe.

(* ===================================================================== *)
(** ** src/polymarket.ts *)
(* ===================================================================== *)

Module polymarket.
Import JsString config Host.

(** The fields of a [Polymarket] instance the approval flow reads. *)
Record Polymarket : Type := {
  provider : JsonRpcProvider;
  signer : Wallet;
  ctfContract : Contract
}.

(** [ethers.utils.parseUnits("50", "gwei")]. *)
Definition fallbackGasPrice : Z := 50 * 10 ^ 9.

Section WithWorld.
Context {W : Type} {host : World W}.

(** Checks if the exchange contract is approved to manage tokens. *)
Definition isApproved (this : Polymarket) : Promise W bool :=
  request
    (Call_isApprovedForAll (ctfContract this) (address (signer this))
                           polymarketExchange)
    (isApprovedForAll (ctfContract this) (address (signer this))
                      polymarketExchange).

(** Approves the Polymarket exchange to manage all tokens; the gas
    price is the network's with a 50% buffer, 50 gwei when the network
    reports none. *)
Definition approvalAll (this : Polymarket) : Promise W bool :=
  feeData <- request (Call_getFeeData (provider this))
                     (getFeeData (provider this)) ;;
  let gasPrice :=
    match gasPrice feeData with
    | Some p => Z.quot (p * 150) 100
    | None => fallbackGasPrice
    end in
  let overrides :=
    {| override_gasPrice := gasPrice; gasLimit := 100000 |} in
  tx <- request
          (Call_setApprovalForAll (ctfContract this) polymarketExchange
                                  true overrides)
          (setApprovalForAll (ctfContract this) polymarketExchange
                             true overrides) ;;
  receipt <- request (Call_wait tx) (wait tx) ;;
  if (status receipt =? 1)%Z then
    approved <- isApproved this ;;
    if approved then ret true else raise (Error "Approval failed")
  else raise (Error "Approval failed").

(** Determines if a wallet address is a Gnosis Safe (the copy of this
    module, on a plainly constructed provider). *)
Definition isGnosisSafe (address rpcUrl : string) : Promise W bool :=
  let provider :=
    {| provider_url := rpcUrl; staticNetwork := None |} in
  code <- request (Call_getCode provider address)
                  (getCode provider address) ;;
  ret (negb (code =? "0x")).

End WithWorld.

End polymarket.

(* ===================================================================== *)
(** ** Vocabulary of the statements *)
(* ===================================================================== *)

Module Vocabulary.
Import JsString types config Host utils.

(** The zero bytes in front of an ABI-encoded address. *)
Definition zeros24 : string := "000000000000000000000000".

(** The [fetch] options [postJsonRpc] sends for a request. *)
Definition post_init (rpcRequest : JsonRpcRequest) : RequestInit :=
  {| init_method := "POST";
     headers := [("Content-Type", "application/json")];
     body := JSON.stringify (JsonRpcRequest_toJson rpcRequest) |}.

(** The envelope
    [{jsonrpc: "2.0", method: "eth_call", params: [{to, data}, "latest"], id: 1}]. *)
Definition eth_call_request (factoryAddress callData : string)
  : JsonRpcRequest :=
  {| jsonrpc := "2.0";
     method := "eth_call";
     params := ({| to := factoryAddress; data := callData |}, "latest");
     id := 1 |}.

(** An override that applies whenever it is given. *)
Definition given_or_default (override : option string) (default : string)
  : string :=
  match override with
  | Some v => v
  | None => default
  end.

(** An override that applies when it is given and not empty. *)
Definition nonempty_or_default (override : option string) (default : string)
  : string :=
  match override with
  | Some (String c v) => String c v
  | _ => default
  end.

(** Call data: the selector of [signature] followed by the encoded
    owner address. *)
Definition call_data (ethers_id : string -> string)
  (signature walletAddress : string) : string :=
  getFunctionSelector ethers_id signature ++ encodeAddress walletAddress.

(** The request of the derivation when an override applies only if it
    is given and not empty. *)
Definition derivation_request (ethers_id : string -> string)
  (walletAddress : string) (options : option safe.Options)
  : JsonRpcRequest :=
  eth_call_request
    (nonempty_or_default (safe.optional options safe.safeProxyFactoryAddress)
                         SAFE_PROXY_FACTORY_ADDRESS)
    (call_data ethers_id
       (nonempty_or_default (safe.optional options safe.functionSignature)
                            COMPUTE_PROXY_ADDRESS_FUNCTION_SIGNATURE)
       walletAddress).

(** The call-data shape read with "when given": every given override
    applies, the empty string included. *)
Definition submits_every_given_override {W : Type} {host : World W}
  (ethers_id : string -> string) (rpcUrl walletAddress : string)
  (options : option safe.Options) (o : Outside W) : Prop :=
  let signature :=
    given_or_default (safe.optional options safe.functionSignature)
                     COMPUTE_PROXY_ADDRESS_FUNCTION_SIGNATURE in
  let factoryAddress :=
    given_or_default (safe.optional options safe.safeProxyFactoryAddress)
                     SAFE_PROXY_FACTORY_ADDRESS in
  calls (snd (run (safe.getSafeProxyAddress ethers_id rpcUrl walletAddress
                                            options) o))
  = (calls o
     ++ [Call_fetch rpcUrl
           (post_init (eth_call_request factoryAddress
                         (call_data ethers_id signature walletAddress)))])%list.

(** The gas price [approvalAll] bids for the fee data it was given. *)
Definition bufferedGasPrice (feeData : FeeData) : Z :=
  match gasPrice feeData with
  | Some p => Z.quot (p * 150) 100
  | None => 50000000000
  end.

(** A world without state that gives the same answers every time. *)
Definition cannedWorld (fetched : JsError + Response)
  (code : JsError + string) : World unit :=
  {| fetch := fun _ _ w => (fetched, w);
     getCode := fun _ _ w => (code, w);
     getFeeData := fun _ w => (inl (Error "unsupported"), w);
     setApprovalForAll := fun _ _ _ _ w => (inl (Error "unsupported"), w);
     wait := fun _ w => (inl (Error "unsupported"), w);
     isApprovedForAll := fun _ _ _ w => (inl (Error "unsupported"), w) |}.

(** A chain whose state is the approval flag of the one operator: a
    mined [setApprovalForAll] stores the flag when [stores] holds, the
    receipt carries [receiptStatus], and the re-check reads the flag. *)
Definition chainWorld (stores : bool) (receiptStatus : Z) : World bool :=
  {| fetch := fun _ _ w => (inl (Error "unsupported"), w);
     getCode := fun _ _ w => (inr "0x", w);
     getFeeData := fun _ w => (inr {| gasPrice := Some 30000000000%Z |}, w);
     setApprovalForAll := fun _ _ approved _ w =>
       (inr {| hash := "0xtx" |}, if stores then approved else w);
     wait := fun _ w => (inr {| status := receiptStatus |}, w);
     isApprovedForAll := fun _ _ _ w => (inr w, w) |}.

(** The hash the unit test of the derivation stubs [ethers.id] with. *)
Definition stubbed_id (_ : string) : string :=
  "0x1234567890abcdef1234567890abcdef1234567890abcdef1234567890abcdef".

Definition fresh {W : Type} (w : W) : Outside W :=
  {| world := w; calls := [] |}.

(** The response of the node in the unit test of the derivation. *)
Definition fixture_response : Response :=
  {| ok := true;
     json := inr {| response_jsonrpc := Some "2.0";
                    result := Some "0x0000000000000000000000001111222233334444555566667777888899990000";
                    error := None;
                    response_id := Some 1%Z |} |}.

(** The node answering with a JSON-RPC error object (and a result). *)
Definition failing_response : Response :=
  {| ok := true;
     json := inr {| response_jsonrpc := Some "2.0";
                    result := Some "0x0000000000000000000000001111222233334444555566667777888899990000";
                    error := Some {| code := -32000; message := "error";
                                     error_data := None |};
                    response_id := Some 1%Z |} |}.

(** The node answering with neither a result nor an error. *)
Definition hollow_response : Response :=
  {| ok := true;
     json := inr {| response_jsonrpc := Some "2.0";
                    result := None;
                    error := None;
                    response_id := Some 1%Z |} |}.

(** An instance whose wallet and contract addresses are those of the
    unit tests. *)
Definition client : polymarket.Polymarket :=
  {| polymarket.provider := {| provider_url := "http://rpc"; staticNetwork := None |};
     polymarket.signer := {| address := "0xwallet" |};
     polymarket.ctfContract := {| contract_address := "0xctf"; abi := CTF_ABI;
                       contract_signer := {| address := "0xwallet" |} |} |}.

End Vocabulary.

(* ===================================================================== *)
(** ** The order-book client the SDK drives *)
(* ===================================================================== *)

Module clob_client.
Import JsString Host.

(** The rest of config.ts that the class reads. *)
Definition CLobHttpUrl : string := "https://clob.polymarket.com".
Definition polygonChainId : Z := 137.

(** [SignatureType] of the order utilities and [OrderType] of the
    order-book client. *)
Inductive SignatureType : Type := EOA | POLY_PROXY | POLY_GNOSIS_SAFE.
Inductive OrderType : Type := GTC | FOK | GTD | FAK.

Record ApiKeyCreds : Type := {
  key : string;
  secret : string;
  passphrase : string
}.

(** A [ClobClient], by the arguments it was constructed with. *)
Record ClobClient : Type := {
  client_host : option string;
  client_chainId : Z;
  client_signer : option Wallet;
  client_creds : option ApiKeyCreds;
  client_signatureType : SignatureType;
  funderAddress : option string
}.

(** Orders, their options, signed orders and the answer to a posted order
    are objects the SDK hands on without looking inside. *)
Definition UserMarketOrder : Type := JSON.Json.
Definition CreateOrderOptions : Type := JSON.Json.
Definition SignedOrder : Type := JSON.Json.
Definition OrderResponse : Type := JSON.Json.

(** The calls made on an order-book client, as they are issued. *)
Inductive ClobCall : Type :=
| Clob_createOrDeriveApiKey (client : ClobClient)
| Clob_createMarketOrder (client : ClobClient) (order : UserMarketOrder)
    (options : option CreateOrderOptions)
| Clob_postOrder (client : ClobClient) (signedOrder : SignedOrder)
    (orderType : OrderType).

(** The order book as part of the world. *)
Class Exchange (W : Type) : Type := {
  createOrDeriveApiKey : ClobClient -> W -> (JsError + ApiKeyCreds) * W;
  createMarketOrder :
    ClobClient -> UserMarketOrder -> option CreateOrderOptions ->
    W -> (JsError + SignedOrder) * W;
  client_postOrder :
    ClobClient -> SignedOrder -> OrderType -> W -> (JsError + OrderResponse) * W
}.

(** The world together with the log of the order-book calls. *)
Record Desk (W : Type) : Type := { chain : W; clob_calls : list ClobCall }.
Arguments chain {W} _.
Arguments clob_calls {W} _.

Section Desk.
Context {W : Type}.

Definition on_chain {A : Type} (answer : W -> (JsError + A) * W)
  (d : Desk W) : (JsError + A) * Desk W :=
  let (r, w') := answer (chain d) in
  (r, {| chain := w'; clob_calls := clob_calls d |}).

(** The chain calls of a world, seen from the desk. *)
Definition deskWorld (host : World W) : World (Desk W) :=
  {| fetch := fun url init => on_chain (fetch url init);
     getCode := fun provider address => on_chain (getCode provider address);
     getFeeData := fun provider => on_chain (getFeeData provider);
     setApprovalForAll := fun contract operator approved overrides =>
       on_chain (setApprovalForAll contract operator approved overrides);
     wait := fun tx => on_chain (wait tx);
     isApprovedForAll := fun contract account operator =>
       on_chain (isApprovedForAll contract account operator) |}.

(** Awaiting a call on an order-book client: log it, let the world
    answer. *)
Definition clob_request {A : Type} (c : ClobCall)
  (answer : W -> (JsError + A) * W) : Promise (Desk W) A :=
  mkEitherT (mkState (fun o =>
    let (r, w') := answer (chain (world o)) in
    (r, {| world := {| chain := w'; clob_calls := clob_calls (world o) ++ [c] |};
           calls := calls o |}))).

End Desk.

(** Calling a method on [undefined] throws a [TypeError]; the wording of
    its message is the engine's. *)
Definition TypeError_undefined (property : string) : JsError :=
  Error ("Cannot read properties of undefined (reading '" ++ property ++ "')").

End clob_client.

(* ===================================================================== *)
(** ** src/polymarket.ts: the class *)
(* ===================================================================== *)

Module polymarket_class.
Import JsString config Host clob_client.

Record PolymarketOptions : Type := {
  rpcUrl : string;
  privateKey : string;
  cLobHttpUrl : option string
}.

(** A [Polymarket] instance: the options, the fields of the approval
    flow, and the order-book client, undefined until one is stored. *)
Record Instance : Type := {
  options : PolymarketOptions;
  fields : polymarket.Polymarket;
  client : option ClobClient
}.

(** [value ?? fallback]: the fallback is taken for an absent value only. *)
Definition nullish_or (value : option string) (fallback : string) : string :=
  match value with
  | Some v => v
  | None => fallback
  end.

Section Vendor.
(** [new ethers.Wallet(privateKey, provider)], which throws on a key it
    cannot use, and the conditional-tokens address of the contract
    configuration for the chain. *)
Variable new_Wallet : string -> JsonRpcProvider -> JsError + Wallet.
Variable CTFContract : string.

(** Creates a new Polymarket client instance. *)
Definition constructor (opts : PolymarketOptions) : JsError + Instance :=
  let opts' :=
    {| rpcUrl := rpcUrl opts;
       privateKey := privateKey opts;
       cLobHttpUrl := Some (nullish_or (cLobHttpUrl opts) CLobHttpUrl) |} in
  let provider :=
    {| provider_url := rpcUrl opts; staticNetwork := None |} in
  match new_Wallet (privateKey opts) provider with
  | inl e => inl e
  | inr signer =>
      inr {| options := opts';
             fields :=
               {| polymarket.provider := provider;
                  polymarket.signer := signer;
                  polymarket.ctfContract :=
                    {| contract_address := CTFContract;
                       abi := CTF_ABI;
                       contract_signer := signer |} |};
             client := None |}
  end.
End Vendor.

Section WithWorld.
Context {W : Type} {host : World W} {exchange : Exchange W}.

(** Creates and initializes the CLOB client; the API key is asked of the
    client the instance already holds.  The result is the client together
    with the instance that now stores it. *)
Definition createClient (this : Instance)
  : Promise (Desk W) (ClobClient * Instance) :=
  let address := address (polymarket.signer (fields this)) in
  code <- request (Call_getCode (polymarket.provider (fields this)) address)
                  (getCode (World := deskWorld host)
                           (polymarket.provider (fields this)) address) ;;
  let isProxySafe := negb (code =? "0x") in
  let signatureType := if isProxySafe then POLY_GNOSIS_SAFE else EOA in
  match client this with
  | None => raise (TypeError_undefined "createOrDeriveApiKey")
  | Some held =>
      apiKeyCreds <- clob_request (Clob_createOrDeriveApiKey held)
                                  (createOrDeriveApiKey held) ;;
      let created :=
        {| client_host := cLobHttpUrl (options this);
           client_chainId := polygonChainId;
           client_signer := Some (polymarket.signer (fields this));
           client_creds := Some apiKeyCreds;
           client_signatureType := signatureType;
           funderAddress := if isProxySafe then Some address else None |} in
      ret (created,
           {| options := options this;
              fields := fields this;
              client := Some created |})
  end.

(** Posts a market order to Polymarket, Fill-or-Kill. *)
Definition postOrder (this : Instance) (userMarketOrder : UserMarketOrder)
  (opts : option CreateOrderOptions) : Promise (Desk W) OrderResponse :=
  match client this with
  | None => raise (TypeError_undefined "createMarketOrder")
  | Some held =>
      signedOrder <- clob_request
                       (Clob_createMarketOrder held userMarketOrder opts)
                       (createMarketOrder held userMarketOrder opts) ;;
      tx <- clob_request (Clob_postOrder held signedOrder FOK)
                         (client_postOrder held signedOrder FOK) ;;
      ret tx
  end.

End WithWorld.

End polymarket_class.

(* ===================================================================== *)
(** ** packages/polymarket/src/index.ts: the class *)
(* ===================================================================== *)

Module package_index.
Import JsString config Host utils clob_client.

(** A [Polymarket] instance of the package: as before, and the second
    wallet kept for the order-book client. *)
Record Instance : Type := {
  options : polymarket_class.PolymarketOptions;
  fields : polymarket.Polymarket;
  clobSigner : Wallet;
  client : option ClobClient
}.

Section Vendor.
(** The two wallet constructors (ethers 6 and ethers 5) and the
    conditional-tokens address. *)
Variable new_Wallet : string -> JsonRpcProvider -> JsError + Wallet.
Variable new_V5Wallet : string -> string -> JsError + Wallet.
Variable CTFContract : string.

(** Creates a new Polymarket client instance. *)
Definition constructor (opts : polymarket_class.PolymarketOptions)
  : JsError + Instance :=
  let opts' :=
    {| polymarket_class.rpcUrl := polymarket_class.rpcUrl opts;
       polymarket_class.privateKey := polymarket_class.privateKey opts;
       polymarket_class.cLobHttpUrl :=
         Some (polymarket_class.nullish_or
                 (polymarket_class.cLobHttpUrl opts) CLobHttpUrl) |} in
  let provider := getJsonRpcProvider (polymarket_class.rpcUrl opts) in
  match new_Wallet (polymarket_class.privateKey opts) provider with
  | inl e => inl e
  | inr signer =>
      match new_V5Wallet (polymarket_class.privateKey opts)
                         (polymarket_class.rpcUrl opts) with
      | inl e => inl e
      | inr clobSigner =>
          inr {| options := opts';
                 fields :=
                   {| polymarket.provider := provider;
                      polymarket.signer := signer;
                      polymarket.ctfContract :=
                        {| contract_address := CTFContract;
                           abi := CTF_ABI;
                           contract_signer := signer |} |};
                 clobSigner := clobSigner;
                 client := None |}
      end
  end.
End Vendor.

(** ClobClient signer type (ethers v5 compatibility). *)
Definition getClobSigner (this : Instance) : option Wallet :=
  Some (clobSigner this).

Section WithWorld.
Context {W : Type} {host : World W} {exchange : Exchange W}.

(** Creates and initializes the CLOB client; the API key is asked of a
    bootstrap client built without credentials. *)
Definition createClient (this : Instance)
  : Promise (Desk W) (ClobClient * Instance) :=
  let address := address (polymarket.signer (fields this)) in
  code <- request (Call_getCode (polymarket.provider (fields this)) address)
                  (getCode (World := deskWorld host)
                           (polymarket.provider (fields this)) address) ;;
  let isProxySafe := negb (code =? "0x") in
  let signatureType := if isProxySafe then POLY_GNOSIS_SAFE else EOA in
  let bootstrapClient :=
    {| client_host := polymarket_class.cLobHttpUrl (options this);
       client_chainId := polygonChainId;
       client_signer := getClobSigner this;
       client_creds := None;
       client_signatureType := signatureType;
       funderAddress := if isProxySafe then Some address else None |} in
  apiKeyCreds <- clob_request (Clob_createOrDeriveApiKey bootstrapClient)
                              (createOrDeriveApiKey bootstrapClient) ;;
  let created :=
    {| client_host := polymarket_class.cLobHttpUrl (options this);
       client_chainId := polygonChainId;
       client_signer := getClobSigner this;
       client_creds := Some apiKeyCreds;
       client_signatureType := signatureType;
       funderAddress := if isProxySafe then Some address else None |} in
  ret (created,
       {| options := options this;
          fields := fields this;
          clobSigner := clobSigner this;
          client := Some created |}).

(** Posts a market order to Polymarket, Fill-or-Kill. *)
Definition postOrder (this : Instance) (userMarketOrder : UserMarketOrder)
  (opts : option CreateOrderOptions) : Promise (Desk W) OrderResponse :=
  match client this with
  | None => raise (TypeError_undefined "createMarketOrder")
  | Some held =>
      signedOrder <- clob_request
                       (Clob_createMarketOrder held userMarketOrder opts)
                       (createMarketOrder held userMarketOrder opts) ;;
      tx <- clob_request (Clob_postOrder held signedOrder FOK)
                         (client_postOrder held signedOrder FOK) ;;
      ret tx
  end.

End WithWorld.

Section Approval.
Context {W : Type} {host : World W}.

(** Checks if the exchange contract is approved to manage tokens. *)
Definition isApproved (this : polymarket.Polymarket) : Promise W bool :=
  request
    (Call_isApprovedForAll (polymarket.ctfContract this)
                           (address (polymarket.signer this))
                           polymarketExchange)
    (isApprovedForAll (polymarket.ctfContract this)
                      (address (polymarket.signer this))
                      polymarketExchange).

(** Approves the Polymarket exchange to manage all tokens.  The gas price
    is a [bigint] here: zero is falsy and takes the 50 gwei fallback like
    a missing price, and the division truncates. *)
Definition approvalAll (this : polymarket.Polymarket) : Promise W bool :=
  feeData <- request (Call_getFeeData (polymarket.provider this))
                     (getFeeData (polymarket.provider this)) ;;
  let gasPrice :=
    match gasPrice feeData with
    | Some p =>
        if (p =? 0)%Z then polymarket.fallbackGasPrice
        else Z.quot (p * 150) 100
    | None => polymarket.fallbackGasPrice
    end in
  let overrides :=
    {| override_gasPrice := gasPrice; gasLimit := 100000 |} in
  tx <- request
          (Call_setApprovalForAll (polymarket.ctfContract this)
                                  polymarketExchange true overrides)
          (setApprovalForAll (polymarket.ctfContract this) polymarketExchange
                             true overrides) ;;
  receipt <- request (Call_wait tx) (wait tx) ;;
  if (status receipt =? 1)%Z then
    approved <- isApproved this ;;
    if approved then ret true else raise (Error "Approval failed")
  else raise (Error "Approval failed").

End Approval.

End package_index.

(* ===================================================================== *)
(** ** More vocabulary *)
(* ===================================================================== *)

Module Fixtures.
Import JsString types config Host utils Vocabulary.

(** The state the derivation leaves behind a [fetch] that answered in
    world [w']: the world as the answer left it, and the one call logged. *)
Definition derivation_after {W : Type} (ethers_id : string -> string)
  (rpcUrl walletAddress : string) (options : option safe.Options)
  (o : Outside W) (w' : W) : Outside W :=
  {| world := w';
     calls := calls o
              ++ [Call_fetch rpcUrl
                    (post_init (derivation_request ethers_id walletAddress
                                                   options))] |}.

(** A chain without state whose four approval calls answer as scripted. *)
Definition scriptedChain (fee : JsError + FeeData)
  (sent : JsError + TransactionResponse)
  (mined : JsError + TransactionReceipt) (checked : JsError + bool)
  : World unit :=
  {| fetch := fun _ _ w => (inl (Error "unsupported"), w);
     getCode := fun _ _ w => (inl (Error "unsupported"), w);
     getFeeData := fun _ w => (fee, w);
     setApprovalForAll := fun _ _ _ _ w => (sent, w);
     wait := fun _ w => (mined, w);
     isApprovedForAll := fun _ _ _ w => (checked, w) |}.

(** An order book without state that gives the same answers every time. *)
Definition cannedExchange (derived : JsError + clob_client.ApiKeyCreds)
  (signed : JsError + clob_client.SignedOrder)
  (posted : JsError + clob_client.OrderResponse)
  : clob_client.Exchange unit :=
  {| clob_client.createOrDeriveApiKey := fun _ w => (derived, w);
     clob_client.createMarketOrder := fun _ _ _ w => (signed, w);
     clob_client.client_postOrder := fun _ _ _ w => (posted, w) |}.

(** A desk on which nothing has been called yet. *)
Definition quiet {W : Type} (w : W) : Outside (clob_client.Desk W) :=
  {| world := {| clob_client.chain := w; clob_client.clob_calls := [] |};
     calls := [] |}.

(** A wallet constructor that accepts every key: the wallet of the unit
    tests. *)
Definition test_Wallet (_ : string) (_ : JsonRpcProvider)
  : JsError + Wallet :=
  inr {| address := "0xwallet" |}.

Definition test_V5Wallet (_ : string) (_ : string) : JsError + Wallet :=
  inr {| address := "0xwallet" |}.

(** The options of the unit tests, without an order-book URL. *)
Definition test_options : polymarket_class.PolymarketOptions :=
  {| polymarket_class.rpcUrl := "http://rpc";
     polymarket_class.privateKey := "0xkey";
     polymarket_class.cLobHttpUrl := None |}.

(** The credentials an order book hands out. *)
Definition test_creds : clob_client.ApiKeyCreds :=
  {| clob_client.key := "key"; clob_client.secret := "secret";
     clob_client.passphrase := "passphrase" |}.

(** The bootstrap client of the package's [createClient] for the code it
    read: no credentials yet. *)
Definition bootstrap_client (this : package_index.Instance) (code : string)
  : clob_client.ClobClient :=
  {| clob_client.client_host :=
       polymarket_class.cLobHttpUrl (package_index.options this);
     clob_client.client_chainId := 137;
     clob_client.client_signer := Some (package_index.clobSigner this);
     clob_client.client_creds := None;
     clob_client.client_signatureType :=
       if code =? "0x" then clob_client.EOA
       else clob_client.POLY_GNOSIS_SAFE;
     clob_client.funderAddress :=
       if code =? "0x" then None
       else Some (address (polymarket.signer (package_index.fields this))) |}.

(** A client as the tests install one by hand. *)
Definition handmade_client : clob_client.ClobClient :=
  {| clob_client.client_host := Some "https://clob.polymarket.com";
     clob_client.client_chainId := 137;
     clob_client.client_signer := Some {| address := "0xwallet" |};
     clob_client.client_creds := Some test_creds;
     clob_client.client_signatureType := clob_client.EOA;
     clob_client.funderAddress := None |}.

(** A JSON-RPC error answer that differs from [failing_response] in
    everything but the code and the result. *)
Definition failing_response_reworded : Response :=
  {| ok := true;
     json := inr {| response_jsonrpc := None;
                    result := Some "0x0000000000000000000000001111222233334444555566667777888899990000";
                    error := Some {| code := -32000;
                                     message := "execution reverted";
                                     error_data := Some (JSON.JString "0x") |};
                    response_id := Some 7%Z |} |}.

(** An instance of the class of src/polymarket.ts as the unit tests
    build it, holding the client [held]. *)
Definition src_instance (held : option clob_client.ClobClient)
  : polymarket_class.Instance :=
  {| polymarket_class.options :=
       {| polymarket_class.rpcUrl := "http://rpc";
          polymarket_class.privateKey := "0xkey";
          polymarket_class.cLobHttpUrl := Some "https://clob.polymarket.com" |};
     polymarket_class.fields := client;
     polymarket_class.client := held |}.

(** An instance of the package's class as its constructor builds it from
    [test_options]. *)
Definition package_instance : package_index.Instance :=
  {| package_index.options :=
       {| polymarket_class.rpcUrl := "http://rpc";
          polymarket_class.privateKey := "0xkey";
          polymarket_class.cLobHttpUrl := Some "https://clob.polymarket.com" |};
     package_index.fields :=
       {| polymarket.provider := getJsonRpcProvider "http://rpc";
          polymarket.signer := {| address := "0xwallet" |};
          polymarket.ctfContract :=
            {| contract_address := "0xctf"; abi := CTF_ABI;
               contract_signer := {| address := "0xwallet" |} |} |};
     package_index.clobSigner := {| address := "0xwallet" |};
     package_index.client := None |}.

(** The client [package_instance] creates when its signer is a contract
    and the order book hands out [test_creds]. *)
Definition safe_client : clob_client.ClobClient :=
  {| clob_client.client_host := Some "https://clob.polymarket.com";
     clob_client.client_chainId := 137;
     clob_client.client_signer := Some {| address := "0xwallet" |};
     clob_client.client_creds := Some test_creds;
     clob_client.client_signatureType := clob_client.POLY_GNOSIS_SAFE;
     clob_client.funderAddress := Some "0xwallet" |}.

(** An order as the unit tests post one. *)
Definition test_order : clob_client.UserMarketOrder :=
  JSON.JObject [ ("market", JSON.JString "0xmarket");
                 ("side", JSON.JString "YES");
                 ("size", JSON.JString "1");
                 ("price", JSON.JString "0.5") ].

(** Characters that [JSON.stringify] copies as they are: no control
    character, no quote, no backslash. *)
Definition isPlainChar (c : ascii) : bool :=
  let n := N_of_ascii c in
  ((32 <=? n) && negb (n =? 34) && negb (n =? 92))%N.

Fixpoint isPlain (s : string) : bool :=
  match s with
  | EmptyString => true
  | String c s' => isPlainChar c && isPlain s'
  end.

(** A string between double quotes, as it is. *)
Definition quoted (s : string) : string :=
  String JSON.dquote (s ++ String JSON.dquote EmptyString).

(** The JSON text of an [eth_call] envelope, written out: the members in
    the order jsonrpc, method, params, id. *)
Definition request_text (factoryAddress callData : string) (n : Z) : string :=
  "{" ++ quoted "jsonrpc" ++ ":" ++ quoted "2.0" ++ ","
      ++ quoted "method" ++ ":" ++ quoted "eth_call" ++ ","
      ++ quoted "params" ++ ":[{"
      ++ quoted "to" ++ ":" ++ quoted factoryAddress ++ ","
      ++ quoted "data" ++ ":" ++ quoted callData ++ "},"
      ++ quoted "latest" ++ "],"
      ++ quoted "id" ++ ":" ++ Number_toString n ++ "}".

(** Two nodes in one world: the state says which of the two reworded
    error answers [fetch] gives. *)
Definition twoNodes : World bool :=
  {| fetch := fun _ _ (w : bool) =>
       (inr (if w then failing_response else failing_response_reworded), w);
     getCode := fun _ _ w => (inl (Error "unsupported"), w);
     getFeeData := fun _ w => (inl (Error "unsupported"), w);
     setApprovalForAll := fun _ _ _ _ w => (inl (Error "unsupported"), w);
     wait := fun _ w => (inl (Error "unsupported"), w);
     isApprovedForAll := fun _ _ _ w => (inl (Error "unsupported"), w) |}.

End Fixtures.

(* ===================================================================== *)
(** ** Facts about the string primitives *)
(* ===================================================================== *)

Module JsStringFacts.
Import JsString.

Lemma length_toLowerCase (s : string) :
  String.length (toLowerCase s) = String.length s.
Proof. induction s as [|c s IH]; simpl; congruence. Qed.

Lemma toLowerCase_app (s t : string) :
  toLowerCase (s ++ t) = toLowerCase s ++ toLowerCase t.
Proof. induction s as [|c s IH]; simpl; congruence. Qed.

Lemma length_app (s t : string) :
  String.length (s ++ t) = (String.length s + String.length t)%nat.
Proof. induction s as [|c s IH]; simpl; congruence. Qed.

Lemma substring_all (s : string) : substring 0 (String.length s) s = s.
Proof. induction s as [|c s IH]; simpl; congruence. Qed.

Lemma substring_skip (s t : string) (m : nat) :
  substring (String.length s) m (s ++ t) = substring 0 m t.
Proof. induction s as [|c s IH]; simpl; [reflexivity | exact IH]. Qed.

(** Cutting a string at any position loses nothing. *)
Lemma substring_split (s : string) (n : nat) :
  (n <= String.length s)%nat ->
  s = substring 0 n s ++ substring n (String.length s - n) s.
Proof.
  revert n; induction s as [|c s IH]; intros [|n] Hn; simpl in *;
    try reflexivity; try lia.
  - now rewrite substring_all.
  - f_equal. apply IH. lia.
Qed.

Lemma length_substring (s : string) (n m : nat) :
  (n + m <= String.length s)%nat -> String.length (substring n m s) = m.
Proof.
  revert n m; induction s as [|c s IH]; intros [|n] [|m] H; simpl in *;
    try reflexivity; try lia.
  - f_equal. apply (IH 0%nat). lia.
  - apply IH. lia.
  - apply IH. lia.
Qed.

Lemma length_filler_single (n : nat) (c : ascii) (cur : string) :
  String.length (filler n cur (String c EmptyString)) = n.
Proof.
  revert cur; induction n as [|n IH]; intros cur; simpl; [reflexivity|].
  destruct cur; simpl; now rewrite IH.
Qed.

(** Lower-casing a hexadecimal digit never produces the letter x. *)
Lemma toLowerCase_hex_not_x (c : ascii) :
  isHexDigit c = true -> toLowerCase_char c <> "x"%char.
Proof.
  destruct c as [[] [] [] [] [] [] [] []]; vm_compute; congruence.
Qed.

(** A lower-cased hexadecimal string does not begin with ["0x"]. *)
Lemma replace_leading_0x_hex (s : string) :
  isHexString s = true ->
  replace_leading_0x (toLowerCase s) = toLowerCase s.
Proof.
  destruct s as [|a [|b s]]; simpl; intros H; try reflexivity.
  - now destruct (toLowerCase_char a) as [[] [] [] [] [] [] [] []].
  - apply andb_true_iff in H as [_ H].
    apply andb_true_iff in H as [Hb _].
    pose proof (toLowerCase_hex_not_x b Hb) as Hx.
    destruct (toLowerCase_char a) as [[] [] [] [] [] [] [] []];
      try reflexivity.
    destruct (toLowerCase_char b) as [[] [] [] [] [] [] [] []];
      try reflexivity.
    now elim Hx.
Qed.

End JsStringFacts.

(* ===================================================================== *)
(** ** The address encoder and decoder *)
(* ===================================================================== *)

Module AddressCodec.
Import JsString utils JsStringFacts Vocabulary.

Lemma toLowerCase_0x (s : string) :
  toLowerCase ("0x" ++ s) = "0x" ++ toLowerCase s.
Proof. reflexivity. Qed.

Lemma isAddressBody_inv (body : string) :
  isAddressBody body = true ->
  String.length body = 40%nat /\ isHexString body = true.
Proof.
  unfold isAddressBody. intros H.
  apply andb_true_iff in H as [Hlen Hhex].
  apply Nat.eqb_eq in Hlen. now split.
Qed.

(** What [padStart] does to a clean address of any length. *)
Lemma encodeAddress_unfold (address : string) :
  let clean := replace_leading_0x (toLowerCase address) in
  encodeAddress address
  = filler (64 - String.length clean) "0" "0" ++ clean.
Proof.
  cbv zeta. unfold encodeAddress, padStart.
  destruct (Nat.leb_spec 64 (String.length (replace_leading_0x (toLowerCase address))))
    as [Hle | Hlt]; [|reflexivity].
  replace (64 - _)%nat with 0%nat by lia. reflexivity.
Qed.

Lemma encodeAddress_body (body : string) :
  isAddressBody body = true ->
  encodeAddress body = zeros24 ++ toLowerCase body.
Proof.
  intros H. apply isAddressBody_inv in H as [Hlen Hhex].
  rewrite encodeAddress_unfold, (replace_leading_0x_hex _ Hhex).
  now rewrite length_toLowerCase, Hlen.
Qed.

Lemma encodeAddress_prefixed (body : string) :
  isAddressBody body = true ->
  encodeAddress ("0x" ++ body) = zeros24 ++ toLowerCase body.
Proof.
  intros H. apply isAddressBody_inv in H as [Hlen Hhex].
  rewrite encodeAddress_unfold, toLowerCase_0x.
  change (replace_leading_0x ("0x" ++ toLowerCase body))
    with (toLowerCase body).
  now rewrite length_toLowerCase, Hlen.
Qed.

(** [slice(-40)] of a string of at least forty characters is its last
    forty characters; of a shorter string, the whole string. *)
Lemma slice_last40_long (pre suf : string) :
  String.length suf = 40%nat -> slice (pre ++ suf) (-40) None = suf.
Proof.
  intros Hlen. unfold slice, relative_index.
  change (-40 <? 0)%Z with true. cbv iota.
  rewrite length_app, Hlen.
  match goal with
  | |- substring ?a ?b _ = _ =>
      replace a with (String.length pre) by lia;
      replace b with (String.length suf) by lia
  end.
  rewrite substring_skip. apply substring_all.
Qed.

Lemma slice_last40_short (s : string) :
  (String.length s < 40)%nat -> slice s (-40) None = s.
Proof.
  intros Hlen. unfold slice, relative_index.
  change (-40 <? 0)%Z with true. cbv iota.
  match goal with
  | |- substring ?a ?b _ = _ =>
      replace a with 0%nat by lia;
      replace b with (String.length s) by lia
  end.
  apply substring_all.
Qed.

(** C6. For a 40-hex-digit address, given bare or with the 0x prefix and
    in any letter case, [encodeAddress] returns 24 zeros followed by the
    lower-cased 40 digits: 64 characters, no 0x prefix.  Nothing is
    validated: any string at all is lower-cased, stripped of a leading
    0x and left-padded with zeros (not at all when already 64 long). *)
Theorem encodeAddress_padding :
  (forall body : string,
      isAddressBody body = true ->
      encodeAddress body = zeros24 ++ toLowerCase body
      /\ encodeAddress ("0x" ++ body) = zeros24 ++ toLowerCase body
      /\ String.length (toLowerCase body) = 40%nat
      /\ String.length (zeros24 ++ toLowerCase body) = 64%nat
      /\ prefix "0x" (zeros24 ++ toLowerCase body) = false
      /\ slice (zeros24 ++ toLowerCase body) (-40) None = toLowerCase body)
  /\ (forall address : string,
         let clean := replace_leading_0x (toLowerCase address) in
         encodeAddress address
         = filler (64 - String.length clean) "0" "0" ++ clean)
  /\ encodeAddress "0xNot-Hex!"
     = "00000000000000000000000000000000000000000000000000000000" ++ "not-hex!".
Proof.
  split; [|split; [exact encodeAddress_unfold | reflexivity]].
  intros body H.
  pose proof (isAddressBody_inv _ H) as [Hlen _].
  assert (Hlow : String.length (toLowerCase body) = 40%nat)
    by now rewrite length_toLowerCase.
  repeat split.
  - now apply encodeAddress_body.
  - now apply encodeAddress_prefixed.
  - exact Hlow.
  - now rewrite length_app, Hlow.
  - now apply slice_last40_long.
Qed.

Lemma encodeAddress_padding_witness :
  isAddressBody "AbC0000000000000000000000000000000000DeF" = true
  /\ encodeAddress "0xAbC0000000000000000000000000000000000DeF"
     = "000000000000000000000000abc0000000000000000000000000000000000def".
Proof.
  split; [reflexivity|].
  exact (proj1 (proj2 (proj1 encodeAddress_padding
           "AbC0000000000000000000000000000000000DeF" eq_refl))).
Defined.

(** C7. [decodeAddress] returns 0x followed by the last 40 characters
    of the input without its 0x prefix; the length is not checked, and an
    input with fewer than 40 characters left yields 0x followed by all of
    them. *)
Theorem decodeAddress_last40 (hexResult : string) :
  let cleanHex := replace_leading_0x hexResult in
  ((40 <= String.length cleanHex)%nat ->
   exists pre suf : string,
     cleanHex = pre ++ suf /\ String.length suf = 40%nat
     /\ decodeAddress hexResult = "0x" ++ suf)
  /\ ((String.length cleanHex < 40)%nat ->
      decodeAddress hexResult = "0x" ++ cleanHex).
Proof.
  cbv zeta. unfold decodeAddress. split; intros Hlen.
  - set (clean := replace_leading_0x hexResult) in *.
    pose (n := (String.length clean - 40)%nat).
    exists (substring 0 n clean), (substring n (String.length clean - n) clean).
    assert (Hsplit : clean = substring 0 n clean
                             ++ substring n (String.length clean - n) clean)
      by (apply substring_split; subst n; lia).
    assert (Hsuf : String.length (substring n (String.length clean - n) clean)
                   = 40%nat)
      by (rewrite length_substring; subst n; lia).
    repeat split; [exact Hsplit | exact Hsuf |].
    rewrite Hsplit at 1. now rewrite slice_last40_long.
  - now rewrite slice_last40_short.
Qed.

Lemma decodeAddress_last40_witness :
  (exists pre suf : string,
      "0000000000000000000000001111222233334444555566667777888899990000"
      = pre ++ suf
      /\ String.length suf = 40%nat
      /\ decodeAddress
           "0x0000000000000000000000001111222233334444555566667777888899990000"
         = "0x" ++ suf)
  /\ decodeAddress "0xabc" = "0x" ++ "abc".
Proof.
  split.
  - apply (proj1 (decodeAddress_last40
      "0x0000000000000000000000001111222233334444555566667777888899990000")).
    simpl. lia.
  - apply (proj2 (decodeAddress_last40 "0xabc")). simpl. lia.
Defined.

(** C2. Decoding the 32-byte encoding of a valid address (0x and forty
    hexadecimal digits) gives the address back in lower case. *)
Theorem decode_encode_roundtrip (addr : string) :
  isAddress addr = true ->
  decodeAddress (encodeAddress addr) = toLowerCase addr.
Proof.
  intros H. unfold isAddress in H.
  destruct addr as [|c0 addr]; [discriminate H|].
  destruct c0 as [[] [] [] [] [] [] [] []]; try discriminate H.
  destruct addr as [|c1 body]; [discriminate H|].
  destruct c1 as [[] [] [] [] [] [] [] []]; try discriminate H.
  change (String "0" (String "x" body)) with ("0x" ++ body).
  rewrite (encodeAddress_prefixed _ H), toLowerCase_0x.
  pose proof (isAddressBody_inv _ H) as [Hlen _].
  unfold decodeAddress.
  change (replace_leading_0x (zeros24 ++ toLowerCase body))
    with (zeros24 ++ toLowerCase body).
  rewrite slice_last40_long; [reflexivity | now rewrite length_toLowerCase].
Qed.

Lemma decode_encode_roundtrip_witness :
  decodeAddress (encodeAddress "0xAbC0000000000000000000000000000000000DeF")
  = "0xabc0000000000000000000000000000000000def".
Proof.
  exact (decode_encode_roundtrip
           "0xAbC0000000000000000000000000000000000DeF" eq_refl).
Defined.

End AddressCodec.

(* ===================================================================== *)
(** ** The JSON-RPC transport *)
(* ===================================================================== *)

Module Transport.
Import JsString types config Host utils safe Vocabulary.

Section WithWorld.
Context {W : Type} {host : World W}.

(** One run of [postJsonRpc], case by case. *)
Lemma run_postJsonRpc (rpcUrl : string) (rpcRequest : JsonRpcRequest)
  (o : Outside W) :
  run (postJsonRpc rpcUrl rpcRequest) o
  = let (fetched, w') := fetch rpcUrl (post_init rpcRequest) (world o) in
    let o' := {| world := w';
                 calls := calls o ++ [Call_fetch rpcUrl (post_init rpcRequest)] |} in
    match fetched with
    | inl e => (inl e, o')
    | inr response =>
        if ok response then
          match json response with
          | inl _ => (inl (Error "RPC_RESPONSE_EMPTY"), o')
          | inr parsed => (inr parsed, o')
          end
        else (inl (Error "RPC_REQUEST_FAILED"), o')
    end.
Proof.
  unfold run, postJsonRpc, post_init. cbn.
  destruct (fetch _ _ (world o)) as [[e | response] w']; cbn;
    [reflexivity|].
  destruct (ok response); cbn; [|reflexivity].
  destruct (json response); reflexivity.
Qed.

(** C4. Given an HTTP response, [postJsonRpc] fails with
    RPC_REQUEST_FAILED exactly when the response is not ok, fails with
    RPC_RESPONSE_EMPTY exactly when it is ok and its body does not
    parse, and in the remaining case returns the parsed body. *)
Theorem postJsonRpc_outcomes (rpcUrl : string)
  (rpcRequest : JsonRpcRequest) (o : Outside W)
  (response : Response) (w' : W) :
  fetch rpcUrl (post_init rpcRequest) (world o) = (inr response, w') ->
  let outcome := fst (run (postJsonRpc rpcUrl rpcRequest) o) in
  (outcome = inl (Error ERROR_CODES.RPC_REQUEST_FAILED)
   <-> ok response = false)
  /\ (outcome = inl (Error ERROR_CODES.RPC_RESPONSE_EMPTY)
      <-> ok response = true /\ exists e, json response = inl e)
  /\ (forall parsed : JsonRpcResponse,
         outcome = inr parsed
         <-> ok response = true /\ json response = inr parsed).
Proof.
  intros Hfetch. cbv zeta. rewrite run_postJsonRpc, Hfetch.
  destruct (ok response); [destruct (json response) as [e | parsed]|];
    cbn; repeat split; intros; try discriminate;
    repeat match goal with
           | [ Hc : _ /\ _ |- _ ] => destruct Hc
           | [ Hc : exists _, _ |- _ ] => destruct Hc
           end;
    try discriminate; try congruence; eauto.
Qed.

End WithWorld.

Lemma postJsonRpc_outcomes_witness :
  fst (run (postJsonRpc
              (host := cannedWorld
                         (inr {| ok := false;
                                 json := inl (Error "Unexpected end of JSON input") |})
                         (inr "0x"))
              "https://rpc.example" (eth_call_request "0xfactory" "0xdata"))
           (fresh tt))
  = inl (Error "RPC_REQUEST_FAILED").
Proof.
  apply (proj1 (postJsonRpc_outcomes
                  (host := cannedWorld _ _) "https://rpc.example"
                  (eth_call_request "0xfactory" "0xdata") (fresh tt)
                  {| ok := false;
                     json := inl (Error "Unexpected end of JSON input") |}
                  tt eq_refl)).
  reflexivity.
Defined.

End Transport.

(* ===================================================================== *)
(** ** The proxy-address derivation *)
(* ===================================================================== *)

Module Derivation.
Import JsString types config Host utils safe Vocabulary Transport.

Lemma or_else_nonempty (value : option string) (fallback : string) :
  or_else value fallback = nonempty_or_default value fallback.
Proof. destruct value as [[|c v]|]; reflexivity. Qed.

Section WithWorld.
Context {W : Type} {host : World W}.
Variable ethers_id : string -> string.

(** The transport logs its one [fetch], whatever comes back. *)
Lemma calls_postJsonRpc (rpcUrl : string) (rpcRequest : JsonRpcRequest)
  (o : Outside W) :
  calls (snd (run (postJsonRpc rpcUrl rpcRequest) o))
  = (calls o ++ [Call_fetch rpcUrl (post_init rpcRequest)])%list.
Proof.
  rewrite run_postJsonRpc.
  destruct (fetch _ _ (world o)) as [[e | response] w']; cbn;
    [reflexivity|].
  destruct (ok response); [destruct (json response)|]; reflexivity.
Qed.

(** One run of [getSafeProxyAddress] in terms of its transport. *)
Lemma run_getSafeProxyAddress (rpcUrl walletAddress : string)
  (options : option Options) (o : Outside W) :
  run (getSafeProxyAddress ethers_id rpcUrl walletAddress options) o
  = let (posted, o') :=
      run (postJsonRpc rpcUrl
             (derivation_request ethers_id walletAddress options)) o in
    match posted with
    | inl e => (inl e, o')
    | inr rpcResponse =>
        match error rpcResponse with
        | Some e =>
            (inl (Error ("RPC_ERROR:" ++ Number_toString (code e))), o')
        | None =>
            match result rpcResponse with
            | Some (String c hex) =>
                (inr (decodeAddress (String c hex)), o')
            | _ => (inl (Error "RPC_INVALID_RESULT"), o')
            end
        end
    end.
Proof.
  unfold getSafeProxyAddress, derivation_request, call_data,
    eth_call_request.
  rewrite !or_else_nonempty.
  unfold run at 1. cbn [unEitherT bind Monad_eitherT].
  cbn [runState bind Monad_state].
  change (runState (unEitherT ?p) o) with (run p o).
  destruct (run (postJsonRpc _ _) o) as [[e | rpcResponse] o']; cbn;
    [reflexivity|].
  destruct (error rpcResponse) as [e|]; cbn; [reflexivity|].
  destruct (result rpcResponse) as [[|c hex]|]; reflexivity.
Qed.

(** The derivation issues one call: the [fetch] of its request. *)
Lemma calls_getSafeProxyAddress (rpcUrl walletAddress : string)
  (options : option Options) (o : Outside W) :
  calls (snd (run (getSafeProxyAddress ethers_id rpcUrl walletAddress
                                       options) o))
  = (calls o
     ++ [Call_fetch rpcUrl
           (post_init (derivation_request ethers_id walletAddress options))])%list.
Proof.
  rewrite <- calls_postJsonRpc, run_getSafeProxyAddress.
  destruct (run (postJsonRpc _ _) o) as [[e | rpcResponse] o']; cbn;
    [reflexivity|].
  destruct (error rpcResponse) as [e|]; [reflexivity|].
  destruct (result rpcResponse) as [[|c hex]|]; reflexivity.
Qed.

(** C1 (amended). For every rpcUrl, owner address and options,
    [getSafeProxyAddress] issues exactly one call, the [fetch] of the
    request [{jsonrpc: "2.0", method: "eth_call",
    params: [{to, data}, "latest"], id: 1}] with data = selector ++
    encoded owner address; the signature and the factory address are
    the overrides when these are given and not empty, the defaults
    otherwise. *)
Theorem call_data_shape (rpcUrl walletAddress : string)
  (options : option Options) (o : Outside W) :
  let signature :=
    nonempty_or_default (optional options functionSignature)
                        "computeProxyAddress(address)" in
  let factoryAddress :=
    nonempty_or_default (optional options safeProxyFactoryAddress)
                        "0xaacFeEa03eb1561C4e67d661e40682Bd20E3541b" in
  let data :=
    getFunctionSelector ethers_id signature ++ encodeAddress walletAddress in
  calls (snd (run (getSafeProxyAddress ethers_id rpcUrl walletAddress
                                       options) o))
  = (calls o
     ++ [Call_fetch rpcUrl
           {| init_method := "POST";
              headers := [("Content-Type", "application/json")];
              body :=
                JSON.stringify
                  (JsonRpcRequest_toJson
                     {| jsonrpc := "2.0";
                        method := "eth_call";
                        params := ({| to := factoryAddress; data := data |},
                                   "latest");
                        id := 1 |}) |}])%list.
Proof.
  exact (calls_getSafeProxyAddress rpcUrl walletAddress options o).
Qed.

(** C3. When the parsed response carries an error object, the
    derivation fails with a message that begins RPC_ERROR: and goes on
    with the rendering of the error code, whatever the result field
    holds; for a code that is a safe integer (magnitude at most
    2^53 - 1, as every JSON-RPC error code in use is) the rendering is its
    decimal numeral, as in RPC_ERROR:-32000. *)
Theorem rpc_error_reported (rpcUrl walletAddress : string)
  (options : option Options) (o : Outside W)
  (response : Response) (w' : W)
  (parsed : JsonRpcResponse) (e : JsonRpcError) :
  fetch rpcUrl
        (post_init (derivation_request ethers_id walletAddress options))
        (world o) = (inr response, w') ->
  ok response = true ->
  json response = inr parsed ->
  error parsed = Some e ->
  (exists rendering : string,
      fst (run (getSafeProxyAddress ethers_id rpcUrl walletAddress options) o)
      = inl (Error ("RPC_ERROR:" ++ rendering)))
  /\ ((Z.abs (code e) <= 9007199254740991)%Z ->
      fst (run (getSafeProxyAddress ethers_id rpcUrl walletAddress options) o)
      = inl (Error ("RPC_ERROR:" ++ Number_toString (code e)))).
Proof.
  intros Hfetch Hok Hjson Herror.
  rewrite run_getSafeProxyAddress, run_postJsonRpc, Hfetch, Hok, Hjson.
  cbv beta iota zeta. rewrite Herror. split.
  - now exists (Number_toString (code e)).
  - reflexivity.
Qed.

(** C5. When the parsed response carries no error object and its
    result is absent or the empty string, the derivation fails with
    RPC_INVALID_RESULT. *)
Theorem invalid_result_reported (rpcUrl walletAddress : string)
  (options : option Options) (o : Outside W)
  (response : Response) (w' : W) (parsed : JsonRpcResponse) :
  fetch rpcUrl
        (post_init (derivation_request ethers_id walletAddress options))
        (world o) = (inr response, w') ->
  ok response = true ->
  json response = inr parsed ->
  error parsed = None ->
  result parsed = None \/ result parsed = Some EmptyString ->
  fst (run (getSafeProxyAddress ethers_id rpcUrl walletAddress options) o)
  = inl (Error ERROR_CODES.RPC_INVALID_RESULT).
Proof.
  intros Hfetch Hok Hjson Herror Hresult.
  rewrite run_getSafeProxyAddress, run_postJsonRpc, Hfetch, Hok, Hjson.
  cbv beta iota zeta. rewrite Herror. now destruct Hresult as [-> | ->].
Qed.

(** C10. An empty-string override is ignored: the derivation with
    functionSignature or safeProxyFactoryAddress set to the empty
    string is the derivation without that override, and with both
    empty it submits the default signature's selector to the default
    factory address. *)
Theorem empty_override_ignored (rpcUrl walletAddress : string)
  (other : option string) (o : Outside W) :
  getSafeProxyAddress ethers_id rpcUrl walletAddress
    (Some {| safeProxyFactoryAddress := other;
             functionSignature := Some EmptyString |})
  = getSafeProxyAddress ethers_id rpcUrl walletAddress
      (Some {| safeProxyFactoryAddress := other;
               functionSignature := None |})
  /\ getSafeProxyAddress ethers_id rpcUrl walletAddress
       (Some {| safeProxyFactoryAddress := Some EmptyString;
                functionSignature := other |})
     = getSafeProxyAddress ethers_id rpcUrl walletAddress
         (Some {| safeProxyFactoryAddress := None;
                  functionSignature := other |})
  /\ calls (snd (run (getSafeProxyAddress ethers_id rpcUrl walletAddress
                        (Some {| safeProxyFactoryAddress := Some EmptyString;
                                 functionSignature := Some EmptyString |}))
                     o))
     = (calls o
        ++ [Call_fetch rpcUrl
              (post_init
                 (eth_call_request
                    "0xaacFeEa03eb1561C4e67d661e40682Bd20E3541b"
                    (getFunctionSelector ethers_id
                                         "computeProxyAddress(address)"
                     ++ encodeAddress walletAddress)))])%list.
Proof.
  split; [reflexivity | split; [reflexivity|]].
  exact (calls_getSafeProxyAddress rpcUrl walletAddress
           (Some {| safeProxyFactoryAddress := Some EmptyString;
                    functionSignature := Some EmptyString |}) o).
Qed.

End WithWorld.

(** The happy path of the unit test: owner 0xAbC...DeF, the stubbed
    hash, and the fixture response give the proxy address 0x1111...0000
    after one POST to the default factory. *)
Example derivation_fixture :
  run (getSafeProxyAddress
         (host := cannedWorld (inr fixture_response) (inr "0x"))
         stubbed_id "https://rpc.example"
         "0xAbC0000000000000000000000000000000000DeF" None)
      (fresh tt)
  = (inr "0x1111222233334444555566667777888899990000",
     {| world := tt;
        calls :=
          [Call_fetch "https://rpc.example"
             (post_init
                (eth_call_request
                   "0xaacFeEa03eb1561C4e67d661e40682Bd20E3541b"
                   ("0x12345678"
                    ++ "000000000000000000000000abc0000000000000000000000000000000000def")))] |}).
Proof. reflexivity. Qed.

(** C1 as stated fails: a factory override given as the empty string
    does not become the target of the call. *)
Lemma empty_factory_override_not_submitted :
  ~ submits_every_given_override
      (host := cannedWorld (inr fixture_response) (inr "0x"))
      stubbed_id "https://rpc.example"
      "0xAbC0000000000000000000000000000000000DeF"
      (Some {| safeProxyFactoryAddress := Some EmptyString;
               functionSignature := None |})
      (fresh tt).
Proof.
  unfold submits_every_given_override. intros Hc.
  vm_compute in Hc. discriminate Hc.
Qed.

Lemma rpc_error_reported_witness :
  fst (run (getSafeProxyAddress
              (host := cannedWorld (inr failing_response) (inr "0x"))
              stubbed_id "https://rpc.example" "0xabc" None)
           (fresh tt))
  = inl (Error "RPC_ERROR:-32000").
Proof.
  apply (proj2 (rpc_error_reported
                  (host := cannedWorld (inr failing_response) (inr "0x"))
                  stubbed_id "https://rpc.example" "0xabc" None (fresh tt)
                  failing_response tt _ _ eq_refl eq_refl eq_refl eq_refl)).
  simpl. lia.
Defined.

Lemma invalid_result_reported_witness :
  fst (run (getSafeProxyAddress
              (host := cannedWorld (inr hollow_response) (inr "0x"))
              stubbed_id "https://rpc.example" "0xabc" None)
           (fresh tt))
  = inl (Error "RPC_INVALID_RESULT").
Proof.
  exact (invalid_result_reported
           (host := cannedWorld (inr hollow_response) (inr "0x"))
           stubbed_id "https://rpc.example" "0xabc" None (fresh tt)
           hollow_response tt _ eq_refl eq_refl eq_refl eq_refl
           (or_introl eq_refl)).
Defined.

End Derivation.

(* ===================================================================== *)
(** ** The contract-code probe *)
(* ===================================================================== *)

Module Probe.
Import JsString config Host utils Vocabulary.

Section WithWorld.
Context {W : Type} {host : World W}.

(** C8. For every address and rpcUrl, both copies of [isGnosisSafe]
    resolve to true if and only if the code string [getCode] returned
    is not exactly 0x: the code 0x gives false, any other code string
    gives true. *)
Theorem isGnosisSafe_iff_code (address rpcUrl : string) (o : Outside W) :
  (forall (code : string) (w' : W),
      getCode (getJsonRpcProvider rpcUrl) address (world o) = (inr code, w') ->
      exists b : bool,
        fst (run (safe.isGnosisSafe address rpcUrl) o) = inr b
        /\ (b = true <-> code <> "0x")
        /\ (code = "0x" -> b = false))
  /\ (forall (code : string) (w' : W),
         getCode {| provider_url := rpcUrl; staticNetwork := None |}
                 address (world o) = (inr code, w') ->
         exists b : bool,
           fst (run (polymarket.isGnosisSafe address rpcUrl) o) = inr b
           /\ (b = true <-> code <> "0x")
           /\ (code = "0x" -> b = false)).
Proof.
  split; intros code w' Hcode; exists (negb (code =? "0x")).
  all: split;
    [ unfold safe.isGnosisSafe, polymarket.isGnosisSafe, run; cbn;
      rewrite Hcode; reflexivity |].
  all: destruct (String.eqb_spec code "0x") as [-> | Hne]; cbn.
  all: split; [split|]; congruence.
Qed.

End WithWorld.

Lemma isGnosisSafe_iff_code_witness :
  fst (run (safe.isGnosisSafe
              (host := cannedWorld (inl (Error "offline")) (inr "0x1234"))
              "0xdef" "http://rpc")
           (fresh tt)) = inr true
  /\ fst (run (polymarket.isGnosisSafe
                 (host := cannedWorld (inl (Error "offline")) (inr "0x"))
                 "0xabc" "http://rpc")
              (fresh tt)) = inr false.
Proof.
  split.
  - destruct (proj1 (isGnosisSafe_iff_code
                       (host := cannedWorld (inl (Error "offline"))
                                            (inr "0x1234"))
                       "0xdef" "http://rpc" (fresh tt))
                    "0x1234" tt eq_refl)
      as (b & Hrun & Hiff & _).
    rewrite Hrun. f_equal. apply Hiff. discriminate.
  - destruct (proj2 (isGnosisSafe_iff_code
                       (host := cannedWorld (inl (Error "offline"))
                                            (inr "0x"))
                       "0xabc" "http://rpc" (fresh tt))
                    "0x" tt eq_refl)
      as (b & Hrun & _ & Hzero).
    rewrite Hrun. f_equal. now apply Hzero.
Defined.

End Probe.

(* ===================================================================== *)
(** ** The approval flow *)
(* ===================================================================== *)

Module Approval.
Import JsString config Host Vocabulary polymarket.

Section WithWorld.
Context {W : Type} {host : World W}.

(** One run of [approvalAll] whose transaction is sent and mined. *)
Lemma run_approvalAll_mined (this : Polymarket) (o : Outside W)
  (feeData : FeeData) (w1 : W) (tx : TransactionResponse) (w2 : W)
  (receipt : TransactionReceipt) (w3 : W) :
  getFeeData (provider this) (world o) = (inr feeData, w1) ->
  setApprovalForAll (ctfContract this) polymarketExchange true
    {| override_gasPrice := bufferedGasPrice feeData; gasLimit := 100000 |}
    w1 = (inr tx, w2) ->
  wait tx w2 = (inr receipt, w3) ->
  fst (run (approvalAll this) o)
  = if (status receipt =? 1)%Z then
      match fst (isApprovedForAll (ctfContract this)
                   (address (signer this)) polymarketExchange w3) with
      | inl e => inl e
      | inr true => inr true
      | inr false => inl (Error "Approval failed")
      end
    else inl (Error "Approval failed").
Proof.
  intros Hfee Hsend Hwait.
  unfold approvalAll, isApproved, run.
  cbn -[polymarketExchange Z.quot Z.mul fallbackGasPrice].
  rewrite Hfee. cbn -[polymarketExchange Z.quot Z.mul fallbackGasPrice].
  change (match gasPrice feeData with
          | Some p => Z.quot (p * 150) 100
          | None => fallbackGasPrice
          end) with (bufferedGasPrice feeData).
  rewrite Hsend. cbn -[polymarketExchange]. rewrite Hwait.
  cbn -[polymarketExchange].
  destruct (status receipt =? 1)%Z; cbn -[polymarketExchange];
    [|reflexivity].
  destruct (isApprovedForAll _ _ _ w3) as [[e | []] w4]; reflexivity.
Qed.

(** C9. Once the approval transaction is mined, [approvalAll] fails
    with "Approval failed" when the receipt status is not 1; and with
    the re-check answering, it returns true exactly when the status is
    1 and the re-check answers true, and fails with "Approval failed"
    when the re-check answers false. *)
Theorem approvalAll_outcome (this : Polymarket) (o : Outside W)
  (feeData : FeeData) (w1 : W) (tx : TransactionResponse) (w2 : W)
  (receipt : TransactionReceipt) (w3 : W) :
  getFeeData (provider this) (world o) = (inr feeData, w1) ->
  setApprovalForAll (ctfContract this) polymarketExchange true
    {| override_gasPrice := bufferedGasPrice feeData; gasLimit := 100000 |}
    w1 = (inr tx, w2) ->
  wait tx w2 = (inr receipt, w3) ->
  let outcome := fst (run (approvalAll this) o) in
  (status receipt <> 1%Z -> outcome = inl (Error "Approval failed"))
  /\ (forall (approved : bool) (w4 : W),
         isApprovedForAll (ctfContract this) (address (signer this))
                          polymarketExchange w3 = (inr approved, w4) ->
         (outcome = inr true <-> status receipt = 1%Z /\ approved = true)
         /\ (status receipt <> 1%Z \/ approved = false ->
             outcome = inl (Error "Approval failed"))).
Proof.
  intros Hfee Hsend Hwait. cbv zeta.
  rewrite (run_approvalAll_mined this o _ _ _ _ _ _ Hfee Hsend Hwait).
  split.
  - intros Hstatus.
    destruct (Z.eqb_spec (status receipt) 1); [contradiction | reflexivity].
  - intros approved w4 Hcheck. rewrite Hcheck. cbn.
    destruct (Z.eqb_spec (status receipt) 1) as [Heq | Hne];
      destruct approved; repeat split; intros; try discriminate;
      try congruence; try tauto;
      repeat match goal with
             | [ Hc : _ /\ _ |- _ ] => destruct Hc
             | [ Hc : _ \/ _ |- _ ] => destruct Hc
             end; congruence.
Qed.

End WithWorld.

Lemma approvalAll_outcome_witness :
  fst (run (approvalAll (host := chainWorld true 1) client) (fresh false))
  = inr true
  /\ fst (run (approvalAll (host := chainWorld false 1) client) (fresh false))
     = inl (Error "Approval failed")
  /\ fst (run (approvalAll (host := chainWorld true 0) client) (fresh false))
     = inl (Error "Approval failed").
Proof.
  split; [|split].
  - apply (proj2 (approvalAll_outcome (host := chainWorld true 1) client
                    (fresh false) _ _ _ _ _ _ eq_refl eq_refl eq_refl)
                 true true eq_refl).
    now split.
  - apply (proj2 (approvalAll_outcome (host := chainWorld false 1) client
                    (fresh false) _ _ _ _ _ _ eq_refl eq_refl eq_refl)
                 false false eq_refl).
    now right.
  - apply (proj1 (approvalAll_outcome (host := chainWorld true 0) client
                    (fresh false) _ _ _ _ _ _ eq_refl eq_refl eq_refl)).
    discriminate.
Defined.

End Approval.

(* ===================================================================== *)
(** ** Further laws of the encoder, the decoder and the selector *)
(* ===================================================================== *)

Module CodecLaws.
Import JsString utils JsStringFacts Vocabulary AddressCodec.

Lemma toLowerCase_char_idem (c : ascii) :
  toLowerCase_char (toLowerCase_char c) = toLowerCase_char c.
Proof. destruct c as [[] [] [] [] [] [] [] []]; reflexivity. Qed.

Lemma toLowerCase_idem (s : string) :
  toLowerCase (toLowerCase s) = toLowerCase s.
Proof.
  induction s as [|c s IH]; simpl; [reflexivity|].
  now rewrite toLowerCase_char_idem, IH.
Qed.

Lemma append_assoc (a b c : string) : (a ++ b) ++ c = a ++ b ++ c.
Proof. induction a as [|x a IH]; simpl; congruence. Qed.

(** Stripping the prefix of a string of two or more characters leaves
    what follows it alone. *)
Lemma replace_leading_0x_app (x y : string) :
  (2 <= String.length x)%nat ->
  replace_leading_0x (x ++ y) = replace_leading_0x x ++ y.
Proof.
  destruct x as [|a [|b x]]; simpl; intros Hlen; try lia.
  destruct a as [[] [] [] [] [] [] [] []]; try reflexivity.
  destruct b as [[] [] [] [] [] [] [] []]; reflexivity.
Qed.

(** [slice(-40)] keeps the whole of a string of at most forty
    characters. *)
Lemma slice_last40_upto (s : string) :
  (String.length s <= 40)%nat -> slice s (-40) None = s.
Proof.
  intros Hlen. destruct (Nat.eq_dec (String.length s) 40) as [Heq | Hne].
  - exact (slice_last40_long EmptyString s Heq).
  - apply slice_last40_short. lia.
Qed.

Lemma length_slice_last40 (s : string) :
  String.length (slice s (-40) None) = Nat.min 40 (String.length s).
Proof.
  destruct (Nat.le_gt_cases (String.length s) 40) as [Hle | Hgt].
  - rewrite slice_last40_upto by exact Hle. lia.
  - unfold slice, relative_index.
    change (-40 <? 0)%Z with true. cbv iota.
    rewrite length_substring; lia.
Qed.

(** The first ten characters: [slice(0, 10)] is a prefix, of length ten
    unless the string is shorter. *)
Lemma slice_first10 (s : string) :
  slice s 0 (Some 10%Z) = substring 0 (Nat.min 10 (String.length s)) s.
Proof.
  unfold slice, relative_index.
  change (0 <? 0)%Z with false. change (10 <? 0)%Z with false. cbv iota.
  f_equal; lia.
Qed.

(** Stripping the prefix takes two characters away at most. *)
Lemma length_before_replace_leading_0x (s : string) :
  (String.length s <= String.length (replace_leading_0x s) + 2)%nat.
Proof.
  destruct s as [|a s]; [simpl; lia|].
  destruct s as [|b s].
  - destruct a as [[] [] [] [] [] [] [] []]; simpl; lia.
  - destruct a as [[] [] [] [] [] [] [] []]; simpl; try lia.
    destruct b as [[] [] [] [] [] [] [] []]; simpl; lia.
Qed.

(** X1. The result of [encodeAddress] is as long as the cleaned address
    (the address in lower case without its 0x prefix) or 64, whichever is
    more.  So it is never shorter than 64, it is shorter than the address
    given by the two characters of a stripped prefix at most, and a
    cleaned address of 64 characters or more comes back as it is, without
    padding and without truncation. *)
Theorem encodeAddress_length (address : string) :
  let clean := replace_leading_0x (toLowerCase address) in
  String.length (encodeAddress address) = Nat.max 64 (String.length clean)
  /\ (64 <= String.length (encodeAddress address))%nat
  /\ (String.length address <= String.length (encodeAddress address) + 2)%nat
  /\ ((64 <= String.length clean)%nat -> encodeAddress address = clean).
Proof.
  cbv zeta.
  assert (Hlen : String.length (encodeAddress address)
                 = Nat.max 64 (String.length
                                 (replace_leading_0x (toLowerCase address))))
    by (rewrite encodeAddress_unfold, length_app, length_filler_single; lia).
  pose proof (length_before_replace_leading_0x (toLowerCase address)) as Hcut.
  rewrite length_toLowerCase in Hcut.
  split; [exact Hlen | split; [lia | split; [lia|]]].
  intros Hlong. rewrite encodeAddress_unfold.
  now replace (64 - _)%nat with 0%nat by lia.
Qed.

Lemma encodeAddress_length_witness :
  encodeAddress
    "0x000000000000000000000000AbC0000000000000000000000000000000000DeF00"
  = "000000000000000000000000abc0000000000000000000000000000000000def00".
Proof.
  apply (proj2 (proj2 (proj2 (encodeAddress_length
    "0x000000000000000000000000AbC0000000000000000000000000000000000DeF00")))).
  simpl. lia.
Defined.

(** X2. [encodeAddress] does not see letter case: an address and its
    lower-cased spelling encode alike, and the prefix is stripped in
    either case, 0X as well as 0x. *)
Theorem encodeAddress_case_insensitive (address : string) :
  encodeAddress (toLowerCase address) = encodeAddress address
  /\ encodeAddress ("0X" ++ address) = encodeAddress ("0x" ++ address).
Proof.
  split; [|reflexivity].
  unfold encodeAddress. now rewrite toLowerCase_idem.
Qed.

(** X3. Whatever it is given, [decodeAddress] returns 0x followed by at
    most forty characters: forty when that many are left after the prefix,
    all of them otherwise. *)
Theorem decodeAddress_shape (hexResult : string) :
  prefix "0x" (decodeAddress hexResult) = true
  /\ String.length (decodeAddress hexResult)
     = (2 + Nat.min 40 (String.length (replace_leading_0x hexResult)))%nat
  /\ (String.length (decodeAddress hexResult) <= 42)%nat.
Proof.
  unfold decodeAddress.
  assert (Hlen : String.length
                   ("0x" ++ slice (replace_leading_0x hexResult) (-40) None)
                 = (2 + Nat.min 40 (String.length (replace_leading_0x hexResult)))%nat)
    by (rewrite length_app, length_slice_last40; reflexivity).
  split; [|split; [exact Hlen | lia]].
  now destruct (slice (replace_leading_0x hexResult) (-40) None).
Qed.

(** X4. Decoding is idempotent: a decoded address decodes to itself. *)
Theorem decodeAddress_idempotent (hexResult : string) :
  decodeAddress (decodeAddress hexResult) = decodeAddress hexResult.
Proof.
  unfold decodeAddress at 1 2.
  change (replace_leading_0x ("0x" ++ ?s)) with s.
  rewrite slice_last40_upto; [reflexivity|].
  rewrite length_slice_last40. lia.
Qed.

(** X5. Decoding looks at the last forty characters only, so whatever
    stands in the upper bytes of the word is dropped unexamined; encoding
    the decoded address gives the word back normalised, 24 zeros and the
    digits in lower case. *)
Theorem encode_decode_normalises (upper body : string) :
  isAddressBody body = true ->
  decodeAddress ("0x" ++ upper ++ body) = "0x" ++ body
  /\ encodeAddress (decodeAddress ("0x" ++ upper ++ body))
     = zeros24 ++ toLowerCase body.
Proof.
  intros Hbody.
  assert (Hdec : decodeAddress ("0x" ++ upper ++ body) = "0x" ++ body).
  { unfold decodeAddress.
    change (replace_leading_0x ("0x" ++ ?s)) with s.
    rewrite slice_last40_long; [reflexivity|].
    now apply isAddressBody_inv in Hbody as [Hlen _]. }
  split; [exact Hdec|].
  rewrite Hdec. now apply encodeAddress_prefixed.
Qed.

Lemma encode_decode_normalises_witness :
  encodeAddress
    (decodeAddress
       ("0x" ++ "ffffffffffffffffffffffff"
             ++ "1111222233334444555566667777888899990ABC"))
  = "0000000000000000000000001111222233334444555566667777888899990abc".
Proof.
  exact (proj2 (encode_decode_normalises "ffffffffffffffffffffffff"
                  "1111222233334444555566667777888899990ABC" eq_refl)).
Defined.

Section Selector.
Variable ethers_id : string -> string.

Lemma length_getFunctionSelector (functionSignature : string) :
  String.length (getFunctionSelector ethers_id functionSignature)
  = Nat.min 10 (String.length (ethers_id functionSignature)).
Proof.
  unfold getFunctionSelector. rewrite slice_first10.
  apply (length_substring _ 0). lia.
Qed.

(** X6. The selector is a prefix of the hash, ten characters long unless
    the hash itself is shorter: nothing is checked and nothing is added. *)
Theorem selector_is_prefix (functionSignature : string) :
  let hash := ethers_id functionSignature in
  let selector := getFunctionSelector ethers_id functionSignature in
  (exists rest : string, hash = selector ++ rest)
  /\ String.length selector = Nat.min 10 (String.length hash).
Proof.
  cbv zeta. unfold getFunctionSelector. rewrite slice_first10.
  set (hash := ethers_id functionSignature).
  set (n := Nat.min 10 (String.length hash)).
  split.
  - exists (substring n (String.length hash - n) hash).
    apply substring_split. subst n. lia.
  - apply (length_substring hash 0 n). subst n. lia.
Qed.

(** X7. For a valid owner address and a hash of at least ten characters
    the call data is 74 characters long, selector then one 32-byte word,
    and the owner can be read back from it in lower case. *)
Theorem call_data_layout (functionSignature owner : string) :
  isAddress owner = true ->
  (10 <= String.length (ethers_id functionSignature))%nat ->
  let data :=
    getFunctionSelector ethers_id functionSignature ++ encodeAddress owner in
  String.length data = 74%nat
  /\ decodeAddress data = toLowerCase owner.
Proof.
  intros Howner Hhash. cbv zeta.
  pose proof (length_getFunctionSelector functionSignature) as Hsel.
  rewrite Nat.min_l in Hsel by exact Hhash.
  set (selector := getFunctionSelector ethers_id functionSignature) in *.
  unfold isAddress in Howner.
  destruct owner as [|c0 owner]; [discriminate Howner|].
  destruct c0 as [[] [] [] [] [] [] [] []]; try discriminate Howner.
  destruct owner as [|c1 body]; [discriminate Howner|].
  destruct c1 as [[] [] [] [] [] [] [] []]; try discriminate Howner.
  change (String "0" (String "x" body)) with ("0x" ++ body).
  rewrite (encodeAddress_prefixed _ Howner), toLowerCase_0x.
  pose proof (isAddressBody_inv _ Howner) as [Hlen _].
  assert (Hlow : String.length (toLowerCase body) = 40%nat)
    by now rewrite length_toLowerCase.
  split.
  - rewrite !length_app, Hsel, Hlow. reflexivity.
  - unfold decodeAddress.
    rewrite <- append_assoc.
    rewrite replace_leading_0x_app by (rewrite length_app, Hsel; simpl; lia).
    now rewrite slice_last40_long.
Qed.

End Selector.

Lemma call_data_layout_witness :
  decodeAddress
    (getFunctionSelector stubbed_id "computeProxyAddress(address)"
     ++ encodeAddress "0xAbC0000000000000000000000000000000000DeF")
  = "0xabc0000000000000000000000000000000000def".
Proof.
  apply (proj2 (call_data_layout stubbed_id "computeProxyAddress(address)"
                  "0xAbC0000000000000000000000000000000000DeF" eq_refl
                  ltac:(simpl; lia))).
Defined.

End CodecLaws.

(* ===================================================================== *)
(** ** Further laws of the derivation and of the probe *)
(* ===================================================================== *)

Module DerivationLaws.
Import JsString types config Host utils safe Vocabulary Fixtures.
Import Transport Derivation.

Section WithWorld.
Context {W : Type} {host : World W}.
Variable ethers_id : string -> string.

(** X8. A rejected [fetch] (the network is down, the URL is bad) is not
    normalised: the derivation rejects with that very error, after its
    one call. *)
Theorem fetch_rejection_passes_through (rpcUrl walletAddress : string)
  (options : option Options) (o : Outside W) (e : JsError) (w' : W) :
  fetch rpcUrl
        (post_init (derivation_request ethers_id walletAddress options))
        (world o) = (inl e, w') ->
  run (getSafeProxyAddress ethers_id rpcUrl walletAddress options) o
  = (inl e, derivation_after ethers_id rpcUrl walletAddress options o w').
Proof.
  intros Hfetch.
  rewrite run_getSafeProxyAddress, run_postJsonRpc, Hfetch. reflexivity.
Qed.

(** X9. On an ok response whose body parses, carries no error object and
    has a non-empty result, the derivation resolves to the decoded result,
    0x and at most its last forty characters, whatever the result's
    length, after its one call. *)
Theorem derivation_success (rpcUrl walletAddress : string)
  (options : option Options) (o : Outside W)
  (response : Response) (w' : W) (parsed : JsonRpcResponse) (hex : string) :
  fetch rpcUrl
        (post_init (derivation_request ethers_id walletAddress options))
        (world o) = (inr response, w') ->
  ok response = true ->
  json response = inr parsed ->
  error parsed = None ->
  result parsed = Some hex ->
  hex <> EmptyString ->
  run (getSafeProxyAddress ethers_id rpcUrl walletAddress options) o
  = (inr (decodeAddress hex), derivation_after ethers_id rpcUrl walletAddress options o w').
Proof.
  intros Hfetch Hok Hjson Herror Hresult Hhex.
  rewrite run_getSafeProxyAddress, run_postJsonRpc, Hfetch, Hok, Hjson.
  cbv beta iota zeta. rewrite Herror, Hresult.
  destruct hex as [|c hex]; [contradiction | reflexivity].
Qed.


(** X11. Of a parsed response the derivation reads the error code and
    the result, nothing else: two ok responses that agree on these settle
    the derivation alike, whatever their id, their jsonrpc version, and
    the message and data of their error. *)
Theorem derivation_reads_code_and_result
  (rpcUrl walletAddress : string) (options : option Options)
  (o1 o2 : Outside W) (response1 response2 : Response) (w1 w2 : W)
  (parsed1 parsed2 : JsonRpcResponse) :
  fetch rpcUrl
        (post_init (derivation_request ethers_id walletAddress options))
        (world o1) = (inr response1, w1) ->
  fetch rpcUrl
        (post_init (derivation_request ethers_id walletAddress options))
        (world o2) = (inr response2, w2) ->
  ok response1 = true -> ok response2 = true ->
  json response1 = inr parsed1 -> json response2 = inr parsed2 ->
  option_map code (error parsed1) = option_map code (error parsed2) ->
  result parsed1 = result parsed2 ->
  fst (run (getSafeProxyAddress ethers_id rpcUrl walletAddress options) o1)
  = fst (run (getSafeProxyAddress ethers_id rpcUrl walletAddress options) o2).
Proof.
  intros Hf1 Hf2 Hok1 Hok2 Hj1 Hj2 Hcode Hresult.
  rewrite !run_getSafeProxyAddress, !run_postJsonRpc.
  rewrite Hf1, Hf2, Hok1, Hok2, Hj1, Hj2. cbv beta iota zeta.
  rewrite Hresult.
  destruct (error parsed1) as [e1|], (error parsed2) as [e2|];
    try discriminate Hcode.
  - injection Hcode as ->. reflexivity.
  - destruct (result parsed2) as [[|c hex]|]; reflexivity.
Qed.

(** X12. The owner enters the derivation through [encodeAddress] alone,
    so its letter case does not matter: the lower-cased owner gives the
    same run, request and outcome. *)
Theorem owner_case_irrelevant (rpcUrl walletAddress : string)
  (options : option Options) (o : Outside W) :
  run (getSafeProxyAddress ethers_id rpcUrl (toLowerCase walletAddress)
                           options) o
  = run (getSafeProxyAddress ethers_id rpcUrl walletAddress options) o.
Proof.
  rewrite !run_getSafeProxyAddress.
  unfold derivation_request, call_data, encodeAddress.
  now rewrite CodecLaws.toLowerCase_idem.
Qed.

(** X13. Both copies of [isGnosisSafe] pass a rejected [getCode] on as it
    is, having issued that one call with the address as it was given, on
    a provider for the rpcUrl given: with the static network matic in
    safe.ts, without one in src/polymarket.ts. *)
Theorem isGnosisSafe_rejection (address rpcUrl : string) (o : Outside W)
  (e : JsError) :
  (forall w' : W,
      getCode {| provider_url := rpcUrl; staticNetwork := Some "matic" |}
              address (world o) = (inl e, w') ->
      run (safe.isGnosisSafe address rpcUrl) o
      = (inl e,
         {| world := w';
            calls := calls o
                     ++ [Call_getCode
                           {| provider_url := rpcUrl;
                              staticNetwork := Some "matic" |}
                           address] |}))
  /\ (forall w' : W,
         getCode {| provider_url := rpcUrl; staticNetwork := None |}
                 address (world o) = (inl e, w') ->
         run (polymarket.isGnosisSafe address rpcUrl) o
         = (inl e,
            {| world := w';
               calls := calls o
                        ++ [Call_getCode
                              {| provider_url := rpcUrl; staticNetwork := None |}
                              address] |})).
Proof.
  split; intros w' Hcode;
    unfold safe.isGnosisSafe, polymarket.isGnosisSafe, getJsonRpcProvider,
      run; cbn;
    now rewrite Hcode.
Qed.

End WithWorld.

Lemma fetch_rejection_passes_through_witness :
  fst (run (getSafeProxyAddress
              (host := cannedWorld (inl (Error "fetch failed")) (inr "0x"))
              stubbed_id "https://rpc.example" "0xabc" None)
           (fresh tt))
  = inl (Error "fetch failed").
Proof.
  exact (f_equal fst
           (fetch_rejection_passes_through
              (host := cannedWorld (inl (Error "fetch failed")) (inr "0x"))
              stubbed_id "https://rpc.example" "0xabc" None (fresh tt)
              (Error "fetch failed") tt eq_refl)).
Defined.

Lemma derivation_success_witness :
  fst (run (getSafeProxyAddress
              (host := cannedWorld (inr fixture_response) (inr "0x"))
              stubbed_id "https://rpc.example"
              "0xAbC0000000000000000000000000000000000DeF" None)
           (fresh tt))
  = inr "0x1111222233334444555566667777888899990000".
Proof.
  exact (f_equal fst
           (derivation_success
              (host := cannedWorld (inr fixture_response) (inr "0x"))
              stubbed_id "https://rpc.example"
              "0xAbC0000000000000000000000000000000000DeF" None (fresh tt)
              fixture_response tt _ _ eq_refl eq_refl eq_refl eq_refl eq_refl
              ltac:(discriminate))).
Defined.


Lemma derivation_reads_code_and_result_witness :
  fst (run (getSafeProxyAddress (host := twoNodes) stubbed_id
              "https://rpc.example" "0xabc" None)
           (fresh true))
  = fst (run (getSafeProxyAddress (host := twoNodes) stubbed_id
                "https://rpc.example" "0xabc" None)
             (fresh false)).
Proof.
  exact (derivation_reads_code_and_result (host := twoNodes)
           stubbed_id "https://rpc.example" "0xabc" None
           (fresh true) (fresh false)
           failing_response failing_response_reworded true false _ _
           eq_refl eq_refl eq_refl eq_refl eq_refl eq_refl eq_refl eq_refl).
Defined.

Lemma isGnosisSafe_rejection_witness :
  fst (run (safe.isGnosisSafe
              (host := cannedWorld (inl (Error "offline"))
                                   (inl (Error "could not detect network")))
              "0xabc" "http://rpc")
           (fresh tt))
  = inl (Error "could not detect network").
Proof.
  exact (f_equal fst
           (proj1 (isGnosisSafe_rejection
                     (host := cannedWorld (inl (Error "offline"))
                                (inl (Error "could not detect network")))
                     "0xabc" "http://rpc" (fresh tt)
                     (Error "could not detect network"))
                  tt eq_refl)).
Defined.

End DerivationLaws.

(* ===================================================================== *)
(** ** Further laws of the approval flow *)
(* ===================================================================== *)

Module ApprovalLaws.
Import JsString config Host Vocabulary Fixtures polymarket.

Section WithWorld.
Context {W : Type} {host : World W}.

(** One run of [approvalAll], call by call. *)
Lemma run_approvalAll (this : Polymarket) (o : Outside W) :
  run (approvalAll this) o
  = let (fee, w1) := getFeeData (provider this) (world o) in
    let log1 := (calls o ++ [Call_getFeeData (provider this)])%list in
    match fee with
    | inl e => (inl e, {| world := w1; calls := log1 |})
    | inr feeData =>
        let overrides :=
          {| override_gasPrice := bufferedGasPrice feeData;
             gasLimit := 100000 |} in
        let (sent, w2) :=
          setApprovalForAll (ctfContract this) polymarketExchange true
                            overrides w1 in
        let log2 :=
          (log1 ++ [Call_setApprovalForAll (ctfContract this)
                      polymarketExchange true overrides])%list in
        match sent with
        | inl e => (inl e, {| world := w2; calls := log2 |})
        | inr tx =>
            let (mined, w3) := wait tx w2 in
            let log3 := (log2 ++ [Call_wait tx])%list in
            match mined with
            | inl e => (inl e, {| world := w3; calls := log3 |})
            | inr receipt =>
                if (status receipt =? 1)%Z then
                  let (checked, w4) :=
                    isApprovedForAll (ctfContract this)
                      (address (signer this)) polymarketExchange w3 in
                  (match checked with
                   | inl e => inl e
                   | inr true => inr true
                   | inr false => inl (Error "Approval failed")
                   end,
                   {| world := w4;
                      calls := (log3 ++ [Call_isApprovedForAll
                                           (ctfContract this)
                                           (address (signer this))
                                           polymarketExchange])%list |})
                else (inl (Error "Approval failed"),
                      {| world := w3; calls := log3 |})
            end
        end
    end.
Proof.
  unfold approvalAll, isApproved, run.
  cbn -[polymarketExchange Z.quot Z.mul fallbackGasPrice].
  destruct (getFeeData (provider this) (world o)) as [[e | feeData] w1];
    cbn -[polymarketExchange Z.quot Z.mul fallbackGasPrice]; [reflexivity|].
  change (match gasPrice feeData with
          | Some p => Z.quot (p * 150) 100
          | None => fallbackGasPrice
          end) with (bufferedGasPrice feeData).
  destruct (setApprovalForAll _ _ _ _ w1) as [[e | tx] w2];
    cbn -[polymarketExchange]; [reflexivity|].
  destruct (wait tx w2) as [[e | receipt] w3];
    cbn -[polymarketExchange]; [reflexivity|].
  destruct (status receipt =? 1)%Z; cbn -[polymarketExchange];
    [|reflexivity].
  destruct (isApprovedForAll _ _ _ w3) as [[e | []] w4]; reflexivity.
Qed.

(** The bid on a non-negative network price is the price and half of it
    again, rounded down. *)
Lemma bufferedGasPrice_half_more (p : Z) :
  (0 <= p)%Z -> bufferedGasPrice {| gasPrice := Some p |} = (p + p / 2)%Z.
Proof.
  intros Hp. unfold bufferedGasPrice. cbn [gasPrice].
  rewrite Z.quot_div_nonneg by lia.
  replace (p * 150)%Z with (p / 2 * 3 * 100 + (p mod 2) * 150)%Z
    by (pose proof (Z.div_mod p 2 ltac:(lia)); lia).
  assert (Hm : (p mod 2 = 0 \/ p mod 2 = 1)%Z)
    by (pose proof (Z.mod_pos_bound p 2 ltac:(lia)); lia).
  pose proof (Z.div_mod p 2 ltac:(lia)) as Hdm.
  destruct Hm as [Hm | Hm]; rewrite Hm in *.
  - rewrite Z.add_0_r, Z.div_mul by lia. lia.
  - change (1 * 150)%Z with (1 * 100 + 50)%Z.
    rewrite Z.add_assoc, <- Z.mul_add_distr_r.
    rewrite Z.div_add_l by lia. change (50 / 100)%Z with 0%Z. lia.
Qed.

(** X14. The approval is sent to the exchange with approved = true, gas
    limit 100000 and, for a network gas price p >= 0, the bid p + p/2
    (rounded down, so never below p); when the network names no price the
    bid is 50 gwei. *)
Theorem approval_bid (this : Polymarket) (o : Outside W)
  (feeData : FeeData) (w1 : W) :
  getFeeData (provider this) (world o) = (inr feeData, w1) ->
  let bid :=
    match gasPrice feeData with
    | Some p => (p + p / 2)%Z
    | None => 50000000000%Z
    end in
  (forall p : Z, gasPrice feeData = Some p -> (0 <= p)%Z) ->
  (forall p : Z, gasPrice feeData = Some p -> (p <= bid)%Z)
  /\ exists later : list Call,
      calls (snd (run (approvalAll this) o))
      = (calls o
         ++ [Call_getFeeData (provider this);
             Call_setApprovalForAll (ctfContract this)
               "0x4bFb41d5B3570DeFd03C39a9A4D8dE6Bd8B8982E" true
               {| override_gasPrice := bid; gasLimit := 100000 |}]
         ++ later)%list.
Proof.
  intros Hfee bid Hpos.
  assert (Hbid : bufferedGasPrice feeData = bid).
  { subst bid. destruct feeData as [[p|]]; [|reflexivity].
    apply bufferedGasPrice_half_more. now apply Hpos. }
  split.
  - intros p Hp. subst bid. rewrite Hp.
    specialize (Hpos p Hp).
    pose proof (Z.div_pos p 2 Hpos ltac:(lia)). lia.
  - rewrite run_approvalAll, Hfee. cbv beta iota zeta. rewrite Hbid.
    change polymarketExchange
      with "0x4bFb41d5B3570DeFd03C39a9A4D8dE6Bd8B8982E".
    destruct (setApprovalForAll _ _ _ _ w1) as [[e | tx] w2].
    + exists []. cbn [snd calls]. now rewrite <- app_assoc.
    + destruct (wait tx w2) as [[e | receipt] w3].
      * exists [Call_wait tx]. cbn [snd calls]. now rewrite <- !app_assoc.
      * destruct (status receipt =? 1)%Z.
        -- destruct (isApprovedForAll _ _ _ w3) as [checked w4].
           eexists [Call_wait tx; _]. cbn [snd calls].
           now rewrite <- !app_assoc.
        -- exists [Call_wait tx]. cbn [snd calls].
           now rewrite <- !app_assoc.
Qed.

(** X15. The flow stops at the first rejection and passes it on as it
    is: without fee data no transaction is sent, and a transaction that
    was not sent is not waited for. *)
Theorem approval_stops_at_rejection (this : Polymarket) (o : Outside W)
  (e : JsError) :
  (forall w1 : W,
      getFeeData (provider this) (world o) = (inl e, w1) ->
      run (approvalAll this) o
      = (inl e,
         {| world := w1;
            calls := calls o ++ [Call_getFeeData (provider this)] |}))
  /\ (forall (feeData : FeeData) (w1 w2 : W),
         getFeeData (provider this) (world o) = (inr feeData, w1) ->
         setApprovalForAll (ctfContract this) polymarketExchange true
           {| override_gasPrice := bufferedGasPrice feeData;
              gasLimit := 100000 |} w1 = (inl e, w2) ->
         fst (run (approvalAll this) o) = inl e
         /\ world (snd (run (approvalAll this) o)) = w2
         /\ List.length (calls (snd (run (approvalAll this) o)))
            = (List.length (calls o) + 2)%nat).
Proof.
  split.
  - intros w1 Hfee. now rewrite run_approvalAll, Hfee.
  - intros feeData w1 w2 Hfee Hsend.
    rewrite run_approvalAll, Hfee. cbv beta iota zeta. rewrite Hsend.
    cbn [fst snd world calls]. repeat split.
    rewrite !length_app. simpl. lia.
Qed.

(** X16. A mined transaction whose receipt status is not 1 ends the flow
    there: "Approval failed" after three calls, the world as the receipt
    left it, and the approval is not looked up. *)
Theorem failed_receipt_skips_recheck (this : Polymarket) (o : Outside W)
  (feeData : FeeData) (w1 : W) (tx : TransactionResponse) (w2 : W)
  (receipt : TransactionReceipt) (w3 : W) :
  getFeeData (provider this) (world o) = (inr feeData, w1) ->
  setApprovalForAll (ctfContract this) polymarketExchange true
    {| override_gasPrice := bufferedGasPrice feeData; gasLimit := 100000 |}
    w1 = (inr tx, w2) ->
  wait tx w2 = (inr receipt, w3) ->
  status receipt <> 1%Z ->
  run (approvalAll this) o
  = (inl (Error "Approval failed"),
     {| world := w3;
        calls := calls o
                 ++ [Call_getFeeData (provider this);
                     Call_setApprovalForAll (ctfContract this)
                       polymarketExchange true
                       {| override_gasPrice := bufferedGasPrice feeData;
                          gasLimit := 100000 |};
                     Call_wait tx] |}).
Proof.
  intros Hfee Hsend Hwait Hstatus.
  rewrite run_approvalAll, Hfee. cbv beta iota zeta.
  rewrite Hsend, Hwait.
  destruct (Z.eqb_spec (status receipt) 1) as [Heq | _]; [contradiction|].
  now rewrite <- !app_assoc.
Qed.

(** X17. With a receipt of status 1 the approval is looked up once, for
    the signer's address and the exchange, and a rejected look-up is
    passed on as it is, not turned into "Approval failed". *)
Theorem recheck_rejection_unmasked (this : Polymarket) (o : Outside W)
  (feeData : FeeData) (w1 : W) (tx : TransactionResponse) (w2 : W)
  (receipt : TransactionReceipt) (w3 : W) (e : JsError) (w4 : W) :
  getFeeData (provider this) (world o) = (inr feeData, w1) ->
  setApprovalForAll (ctfContract this) polymarketExchange true
    {| override_gasPrice := bufferedGasPrice feeData; gasLimit := 100000 |}
    w1 = (inr tx, w2) ->
  wait tx w2 = (inr receipt, w3) ->
  status receipt = 1%Z ->
  isApprovedForAll (ctfContract this) (address (signer this))
                   polymarketExchange w3 = (inl e, w4) ->
  run (approvalAll this) o
  = (inl e,
     {| world := w4;
        calls := calls o
                 ++ [Call_getFeeData (provider this);
                     Call_setApprovalForAll (ctfContract this)
                       polymarketExchange true
                       {| override_gasPrice := bufferedGasPrice feeData;
                          gasLimit := 100000 |};
                     Call_wait tx;
                     Call_isApprovedForAll (ctfContract this)
                       (address (signer this)) polymarketExchange] |}).
Proof.
  intros Hfee Hsend Hwait Hstatus Hcheck.
  rewrite run_approvalAll, Hfee. cbv beta iota zeta.
  rewrite Hsend, Hwait, Hstatus. change (1 =? 1)%Z with true. cbv iota.
  rewrite Hcheck. now rewrite <- !app_assoc.
Qed.

End WithWorld.

Lemma approval_bid_witness :
  exists later : list Call,
    calls (snd (run (approvalAll (host := chainWorld true 1) client)
                    (fresh false)))
    = ([Call_getFeeData (provider client);
        Call_setApprovalForAll (ctfContract client)
          "0x4bFb41d5B3570DeFd03C39a9A4D8dE6Bd8B8982E" true
          {| override_gasPrice := 45000000000; gasLimit := 100000 |}]
       ++ later)%list.
Proof.
  apply (proj2 (approval_bid (host := chainWorld true 1) client (fresh false)
                  {| gasPrice := Some 30000000000%Z |} false eq_refl
                  ltac:(intros p Hp; injection Hp as <-; lia))).
Defined.

Lemma approval_stops_at_rejection_witness :
  run (approvalAll
         (host := scriptedChain (inl (Error "missing response"))
                    (inr {| hash := "0xtx" |}) (inr {| status := 1 |})
                    (inr true))
         client)
      (fresh tt)
  = (inl (Error "missing response"),
     {| world := tt; calls := [Call_getFeeData (provider client)] |}).
Proof.
  exact (proj1 (approval_stops_at_rejection
                  (host := scriptedChain (inl (Error "missing response"))
                             (inr {| hash := "0xtx" |})
                             (inr {| status := 1 |}) (inr true))
                  client (fresh tt) (Error "missing response"))
               tt eq_refl).
Defined.

Lemma failed_receipt_skips_recheck_witness :
  List.length
    (calls (snd (run (approvalAll (host := chainWorld true 0) client)
                     (fresh false))))
  = 3%nat.
Proof.
  rewrite (failed_receipt_skips_recheck (host := chainWorld true 0) client
             (fresh false) _ _ _ _ _ _ eq_refl eq_refl eq_refl
             ltac:(discriminate)).
  reflexivity.
Defined.

Lemma recheck_rejection_unmasked_witness :
  fst (run (approvalAll
              (host := scriptedChain (inr {| gasPrice := None |})
                         (inr {| hash := "0xtx" |}) (inr {| status := 1 |})
                         (inl (Error "call revert exception")))
              client)
           (fresh tt))
  = inl (Error "call revert exception").
Proof.
  exact (f_equal fst
           (recheck_rejection_unmasked
              (host := scriptedChain (inr {| gasPrice := None |})
                         (inr {| hash := "0xtx" |}) (inr {| status := 1 |})
                         (inl (Error "call revert exception")))
              client (fresh tt) _ _ _ _ _ _ _ _
              eq_refl eq_refl eq_refl eq_refl eq_refl)).
Defined.

End ApprovalLaws.

(* ===================================================================== *)
(** ** Laws of the two classes *)
(* ===================================================================== *)

Module ClientLaws.
Import JsString config Host utils clob_client Vocabulary Fixtures.

Section WithWorld.
Context {W : Type} {host : World W} {exchange : Exchange W}.

(** One run of the package's [createClient]. *)
Lemma run_package_createClient (this : package_index.Instance)
  (o : Outside (Desk W)) :
  let provider := polymarket.provider (package_index.fields this) in
  let address := address (polymarket.signer (package_index.fields this)) in
  run (package_index.createClient this) o
  = let (read, w1) := getCode provider address (chain (world o)) in
    let log := (calls o ++ [Call_getCode provider address])%list in
    match read with
    | inl e =>
        (inl e, {| world := {| chain := w1;
                               clob_calls := clob_calls (world o) |};
                   calls := log |})
    | inr code =>
        let (derived, w2) :=
          createOrDeriveApiKey (bootstrap_client this code) w1 in
        let desk :=
          {| chain := w2;
             clob_calls :=
               (clob_calls (world o)
                ++ [Clob_createOrDeriveApiKey (bootstrap_client this code)])%list
          |} in
        match derived with
        | inl e => (inl e, {| world := desk; calls := log |})
        | inr creds =>
            let created :=
              {| client_host := client_host (bootstrap_client this code);
                 client_chainId := 137;
                 client_signer := Some (package_index.clobSigner this);
                 client_creds := Some creds;
                 client_signatureType :=
                   client_signatureType (bootstrap_client this code);
                 funderAddress := funderAddress (bootstrap_client this code) |} in
            (inr (created,
                  {| package_index.options := package_index.options this;
                     package_index.fields := package_index.fields this;
                     package_index.clobSigner := package_index.clobSigner this;
                     package_index.client := Some created |}),
             {| world := desk; calls := log |})
        end
    end.
Proof.
  cbv zeta. unfold package_index.createClient, run. cbn.
  unfold on_chain.
  destruct (getCode _ _ (chain (world o))) as [[e | code] w1]; cbn;
    [reflexivity|].
  unfold bootstrap_client, package_index.getClobSigner.
  destruct (code =? "0x"); cbn;
    destruct (createOrDeriveApiKey _ w1) as [[e | creds] w2]; reflexivity.
Qed.

(** X18. The package's [createClient], on a code read and an API key
    derived: the key was asked of a client without credentials, and the
    client returned and stored carries the derived credentials, the
    second wallet as signer, chain 137, signature type POLY_GNOSIS_SAFE
    with the signer's address as funder when the code is not 0x, and EOA
    without funder when it is. *)
Theorem package_createClient_success (this : package_index.Instance)
  (o : Outside (Desk W)) (code : string) (w1 : W)
  (creds : ApiKeyCreds) (w2 : W) :
  let address := address (polymarket.signer (package_index.fields this)) in
  getCode (polymarket.provider (package_index.fields this)) address
          (chain (world o)) = (inr code, w1) ->
  createOrDeriveApiKey (bootstrap_client this code) w1 = (inr creds, w2) ->
  exists (created : ClobClient) (this' : package_index.Instance),
    fst (run (package_index.createClient this) o) = inr (created, this')
    /\ package_index.client this' = Some created
    /\ package_index.fields this' = package_index.fields this
    /\ client_creds created = Some creds
    /\ client_signer created = Some (package_index.clobSigner this)
    /\ client_chainId created = 137%Z
    /\ (code <> "0x" ->
        client_signatureType created = POLY_GNOSIS_SAFE
        /\ funderAddress created = Some address)
    /\ (code = "0x" ->
        client_signatureType created = EOA /\ funderAddress created = None)
    /\ clob_calls (world (snd (run (package_index.createClient this) o)))
       = (clob_calls (world o)
          ++ [Clob_createOrDeriveApiKey (bootstrap_client this code)])%list
    /\ client_creds (bootstrap_client this code) = None.
Proof.
  intros address Hcode Hkey. subst address.
  pose proof (run_package_createClient this o) as Hrun. cbv zeta in Hrun.
  rewrite Hcode, Hkey in Hrun. rewrite Hrun.
  eexists _, _. split; [reflexivity|].
  cbn [fst snd world clob_calls package_index.client package_index.fields
       client_creds client_signer client_chainId client_signatureType
       funderAddress bootstrap_client].
  repeat split.
  - destruct (String.eqb_spec code "0x"); [contradiction | reflexivity].
  - destruct (String.eqb_spec code "0x"); [contradiction | reflexivity].
  - subst code. reflexivity.
  - subst code. reflexivity.
Qed.

(** X19. A rejection stops the package's [createClient] and is passed on
    as it is: when the code cannot be read no API key is asked for, and
    when the key is refused no client is returned. *)
Theorem package_createClient_rejection (this : package_index.Instance)
  (o : Outside (Desk W)) (e : JsError) :
  let provider := polymarket.provider (package_index.fields this) in
  let address := address (polymarket.signer (package_index.fields this)) in
  (forall w1 : W,
      getCode provider address (chain (world o)) = (inl e, w1) ->
      run (package_index.createClient this) o
      = (inl e,
         {| world := {| chain := w1; clob_calls := clob_calls (world o) |};
            calls := calls o ++ [Call_getCode provider address] |}))
  /\ (forall (code : string) (w1 w2 : W),
         getCode provider address (chain (world o)) = (inr code, w1) ->
         createOrDeriveApiKey (bootstrap_client this code) w1 = (inl e, w2) ->
         fst (run (package_index.createClient this) o) = inl e).
Proof.
  cbv zeta. split.
  - intros w1 Hcode.
    pose proof (run_package_createClient this o) as Hrun. cbv zeta in Hrun.
    now rewrite Hcode in Hrun.
  - intros code w1 w2 Hcode Hkey.
    pose proof (run_package_createClient this o) as Hrun. cbv zeta in Hrun.
    rewrite Hcode, Hkey in Hrun. now rewrite Hrun.
Qed.

(** X20. In src/polymarket.ts [createClient] asks the API key of the
    client the instance holds, and a constructed instance holds none: on
    such an instance [createClient] is rejected in every world, after
    reading the code and without a single call to the order book. *)
Theorem src_createClient_without_client :
  (forall (new_Wallet : string -> JsonRpcProvider -> JsError + Wallet)
          (CTFContract : string)
          (opts : polymarket_class.PolymarketOptions)
          (this : polymarket_class.Instance),
      polymarket_class.constructor new_Wallet CTFContract opts = inr this ->
      polymarket_class.client this = None)
  /\ (forall (this : polymarket_class.Instance) (o : Outside (Desk W)),
         polymarket_class.client this = None ->
         (exists e : JsError,
             fst (run (polymarket_class.createClient this) o) = inl e)
         /\ clob_calls (world (snd (run (polymarket_class.createClient this) o)))
            = clob_calls (world o)
         /\ calls (snd (run (polymarket_class.createClient this) o))
            = (calls o
               ++ [Call_getCode
                     (polymarket.provider (polymarket_class.fields this))
                     (address (polymarket.signer
                                 (polymarket_class.fields this)))])%list).
Proof.
  split.
  - intros new_Wallet CTFContract opts this.
    unfold polymarket_class.constructor.
    destruct (new_Wallet _ _) as [e | signer]; [discriminate|].
    now intros [= <-].
  - intros this o Hnone.
    unfold polymarket_class.createClient, run. rewrite Hnone. cbn.
    unfold on_chain.
    destruct (getCode _ _ (chain (world o))) as [[e | code] w1]; cbn;
      repeat split; eauto.
Qed.

(** One run of [postOrder] on an instance that holds a client. *)
Lemma run_postOrder (this : polymarket_class.Instance) (held : ClobClient)
  (order : UserMarketOrder) (opts : option CreateOrderOptions)
  (o : Outside (Desk W)) :
  polymarket_class.client this = Some held ->
  run (polymarket_class.postOrder this order opts) o
  = let (signed, w1) := createMarketOrder held order opts (chain (world o)) in
    let log1 :=
      (clob_calls (world o) ++ [Clob_createMarketOrder held order opts])%list in
    match signed with
    | inl e =>
        (inl e, {| world := {| chain := w1; clob_calls := log1 |};
                   calls := calls o |})
    | inr signedOrder =>
        let (posted, w2) := client_postOrder held signedOrder FOK w1 in
        (posted,
         {| world := {| chain := w2;
                        clob_calls :=
                          (log1 ++ [Clob_postOrder held signedOrder FOK])%list |};
            calls := calls o |})
    end.
Proof.
  intros Hheld. unfold polymarket_class.postOrder, run. rewrite Hheld. cbn.
  destruct (createMarketOrder _ _ _ (chain (world o))) as [[e | signed] w1];
    cbn; [reflexivity|].
  destruct (client_postOrder _ _ _ w1) as [[e | tx] w2]; reflexivity.
Qed.

(** X21. [postOrder] on an instance without a client, and so on every
    instance fresh from either constructor, is rejected before anything
    is called: the world and both logs are as they were. *)
Theorem postOrder_without_client (order : UserMarketOrder)
  (opts : option CreateOrderOptions) (o : Outside (Desk W)) :
  (forall this : polymarket_class.Instance,
      polymarket_class.client this = None ->
      exists e : JsError,
        run (polymarket_class.postOrder this order opts) o = (inl e, o))
  /\ (forall this : package_index.Instance,
         package_index.client this = None ->
         exists e : JsError,
           run (package_index.postOrder this order opts) o = (inl e, o))
  /\ (forall new_Wallet new_V5Wallet CTFContract options this,
         package_index.constructor new_Wallet new_V5Wallet CTFContract options
         = inr this ->
         package_index.client this = None).
Proof.
  split; [|split].
  - intros this Hnone. eexists.
    unfold polymarket_class.postOrder, run. rewrite Hnone. reflexivity.
  - intros this Hnone. eexists.
    unfold package_index.postOrder, run. rewrite Hnone. reflexivity.
  - intros new_Wallet new_V5Wallet CTFContract options this.
    unfold package_index.constructor.
    destruct (new_Wallet _ _) as [e | signer]; [discriminate|].
    destruct (new_V5Wallet _ _) as [e | clobSigner]; [discriminate|].
    now intros [= <-].
Qed.

(** X22. [postOrder] signs and then posts, always Fill-or-Kill, on the
    client the instance holds: when the order cannot be signed nothing is
    posted, and otherwise the outcome is the order book's answer to the
    post as it is, a rejection included. *)
Theorem postOrder_fill_or_kill (this : polymarket_class.Instance)
  (held : ClobClient) (order : UserMarketOrder)
  (opts : option CreateOrderOptions) (o : Outside (Desk W)) :
  polymarket_class.client this = Some held ->
  (forall (e : JsError) (w1 : W),
      createMarketOrder held order opts (chain (world o)) = (inl e, w1) ->
      run (polymarket_class.postOrder this order opts) o
      = (inl e,
         {| world :=
              {| chain := w1;
                 clob_calls :=
                   clob_calls (world o)
                   ++ [Clob_createMarketOrder held order opts] |};
            calls := calls o |}))
  /\ (forall (signedOrder : SignedOrder) (w1 : W)
             (posted : JsError + OrderResponse) (w2 : W),
         createMarketOrder held order opts (chain (world o))
         = (inr signedOrder, w1) ->
         client_postOrder held signedOrder FOK w1 = (posted, w2) ->
         run (polymarket_class.postOrder this order opts) o
         = (posted,
            {| world :=
                 {| chain := w2;
                    clob_calls :=
                      clob_calls (world o)
                      ++ [Clob_createMarketOrder held order opts;
                          Clob_postOrder held signedOrder FOK] |};
               calls := calls o |})).
Proof.
  intros Hheld. split.
  - intros e w1 Hsign. now rewrite (run_postOrder _ _ _ _ _ Hheld), Hsign.
  - intros signedOrder w1 posted w2 Hsign Hpost.
    rewrite (run_postOrder _ _ _ _ _ Hheld), Hsign, Hpost.
    cbv beta iota zeta. now rewrite <- app_assoc.
Qed.

End WithWorld.

Lemma package_createClient_success_witness :
  exists (created : ClobClient) (this' : package_index.Instance),
    fst (run (package_index.createClient
                (host := cannedWorld (inl (Error "offline")) (inr "0x1234"))
                (exchange := cannedExchange (inr test_creds)
                               (inl (Error "unsupported"))
                               (inl (Error "unsupported")))
                package_instance)
             (quiet tt))
    = inr (created, this')
    /\ client_signatureType created = POLY_GNOSIS_SAFE
    /\ funderAddress created = Some "0xwallet".
Proof.
  destruct (package_createClient_success
              (host := cannedWorld (inl (Error "offline")) (inr "0x1234"))
              (exchange := cannedExchange (inr test_creds)
                             (inl (Error "unsupported"))
                             (inl (Error "unsupported")))
              package_instance (quiet tt) "0x1234" tt test_creds tt
              eq_refl eq_refl)
    as (created & this' & Hrun & _ & _ & _ & _ & _ & Hsafe & _).
  exists created, this'. split; [exact Hrun|].
  apply Hsafe. discriminate.
Defined.

Lemma package_createClient_rejection_witness :
  fst (run (package_index.createClient
              (host := cannedWorld (inl (Error "offline")) (inr "0x"))
              (exchange := cannedExchange (inl (Error "401"))
                             (inl (Error "unsupported"))
                             (inl (Error "unsupported")))
              package_instance)
           (quiet tt))
  = inl (Error "401").
Proof.
  exact (proj2 (package_createClient_rejection
                  (host := cannedWorld (inl (Error "offline")) (inr "0x"))
                  (exchange := cannedExchange (inl (Error "401"))
                                 (inl (Error "unsupported"))
                                 (inl (Error "unsupported")))
                  package_instance (quiet tt) (Error "401"))
               "0x" tt tt eq_refl eq_refl).
Defined.

Lemma src_createClient_without_client_witness :
  (exists e : JsError,
      fst (run (polymarket_class.createClient
                  (host := cannedWorld (inl (Error "offline")) (inr "0x"))
                  (exchange := cannedExchange (inr test_creds)
                                 (inl (Error "unsupported"))
                                 (inl (Error "unsupported")))
                  (src_instance None))
               (quiet tt))
      = inl e)
  /\ polymarket_class.client (src_instance None) = None.
Proof.
  split; [|reflexivity].
  apply (proj2 (src_createClient_without_client
                  (host := cannedWorld (inl (Error "offline")) (inr "0x"))
                  (exchange := cannedExchange (inr test_creds)
                                 (inl (Error "unsupported"))
                                 (inl (Error "unsupported"))))
               (src_instance None) (quiet tt) eq_refl).
Defined.

Lemma postOrder_without_client_witness :
  exists e : JsError,
    run (package_index.postOrder
           (exchange := cannedExchange (inr test_creds)
                          (inr (JSON.JString "signedOrder"))
                          (inr (JSON.JString "tx")))
           package_instance test_order None)
        (quiet tt)
    = (inl e, quiet tt).
Proof.
  apply (proj1 (proj2 (postOrder_without_client
                         (exchange := cannedExchange (inr test_creds)
                                        (inr (JSON.JString "signedOrder"))
                                        (inr (JSON.JString "tx")))
                         test_order None (quiet tt)))
               package_instance eq_refl).
Defined.

Lemma postOrder_fill_or_kill_witness :
  run (polymarket_class.postOrder
         (exchange := cannedExchange (inr test_creds)
                        (inr (JSON.JString "signedOrder"))
                        (inr (JSON.JString "tx")))
         (src_instance (Some handmade_client)) test_order None)
      (quiet tt)
  = (inr (JSON.JString "tx"),
     {| world :=
          {| chain := tt;
             clob_calls :=
               [Clob_createMarketOrder handmade_client test_order None;
                Clob_postOrder handmade_client (JSON.JString "signedOrder")
                               FOK] |};
        calls := [] |}).
Proof.
  exact (proj2 (postOrder_fill_or_kill
                  (exchange := cannedExchange (inr test_creds)
                                 (inr (JSON.JString "signedOrder"))
                                 (inr (JSON.JString "tx")))
                  (src_instance (Some handmade_client)) handmade_client
                  test_order None (quiet tt) eq_refl)
               (JSON.JString "signedOrder") tt (inr (JSON.JString "tx")) tt
               eq_refl eq_refl).
Defined.

End ClientLaws.

(* ===================================================================== *)
(** ** The two copies of the approval flow, and the probe inside
       [createClient] *)
(* ===================================================================== *)

Module CopiesLaws.
Import JsString config Host utils clob_client Vocabulary Fixtures.

Section WithWorld.
Context {W : Type} {host : World W}.

(** X23. The two copies of [approvalAll] differ in one case only.  Unless
    the network reports the gas price zero they run alike, call for call;
    on the price zero the package (where the price is a bigint, and zero
    is falsy) bids the 50 gwei fallback, and src/polymarket.ts bids
    zero. *)
Theorem approvalAll_copies (this : polymarket.Polymarket) (o : Outside W) :
  ((forall w1 : W,
       getFeeData (polymarket.provider this) (world o)
       <> (inr {| gasPrice := Some 0%Z |}, w1)) ->
   run (package_index.approvalAll this) o
   = run (polymarket.approvalAll this) o)
  /\ (forall w1 : W,
         getFeeData (polymarket.provider this) (world o)
         = (inr {| gasPrice := Some 0%Z |}, w1) ->
         (exists later : list Call,
             calls (snd (run (package_index.approvalAll this) o))
             = (calls o
                ++ [Call_getFeeData (polymarket.provider this);
                    Call_setApprovalForAll (polymarket.ctfContract this)
                      polymarketExchange true
                      {| override_gasPrice := 50000000000;
                         gasLimit := 100000 |}]
                ++ later)%list)
         /\ (exists later : list Call,
                calls (snd (run (polymarket.approvalAll this) o))
                = (calls o
                   ++ [Call_getFeeData (polymarket.provider this);
                       Call_setApprovalForAll (polymarket.ctfContract this)
                         polymarketExchange true
                         {| override_gasPrice := 0; gasLimit := 100000 |}]
                   ++ later)%list)).
Proof.
  split.
  - intros Hnonzero.
    unfold package_index.approvalAll, polymarket.approvalAll,
      package_index.isApproved, polymarket.isApproved, run.
    cbn -[polymarketExchange Z.quot Z.mul polymarket.fallbackGasPrice].
    destruct (getFeeData (polymarket.provider this) (world o))
      as [[e | [[p|]]] w1]; try reflexivity.
    cbn -[polymarketExchange Z.quot Z.mul polymarket.fallbackGasPrice].
    destruct (Z.eqb_spec p 0) as [-> | Hp]; [|reflexivity].
    now elim (Hnonzero w1).
  - intros w1 Hfee. split.
    + unfold package_index.approvalAll, package_index.isApproved, run.
      cbn -[polymarketExchange]. rewrite Hfee. cbn -[polymarketExchange].
      destruct (setApprovalForAll _ _ _ _ w1) as [[e | tx] w2];
        cbn -[polymarketExchange].
      * exists []. now rewrite <- app_assoc.
      * destruct (wait tx w2) as [[e | receipt] w3];
          cbn -[polymarketExchange].
        -- exists [Call_wait tx]. now rewrite <- !app_assoc.
        -- destruct (status receipt =? 1)%Z; cbn -[polymarketExchange].
           ++ destruct (isApprovedForAll _ _ _ w3) as [[e | []] w4];
                cbn -[polymarketExchange];
                eexists [Call_wait tx; _]; now rewrite <- !app_assoc.
           ++ exists [Call_wait tx]. now rewrite <- !app_assoc.
    + rewrite ApprovalLaws.run_approvalAll, Hfee. cbv beta iota zeta.
      change (bufferedGasPrice {| gasPrice := Some 0%Z |}) with 0%Z.
      destruct (setApprovalForAll _ _ _ _ w1) as [[e | tx] w2].
      * exists []. cbn [snd calls]. now rewrite <- app_assoc.
      * destruct (wait tx w2) as [[e | receipt] w3].
        -- exists [Call_wait tx]. cbn [snd calls]. now rewrite <- !app_assoc.
        -- destruct (status receipt =? 1)%Z.
           ++ destruct (isApprovedForAll _ _ _ w3) as [checked w4].
              eexists [Call_wait tx; _]. cbn [snd calls].
              now rewrite <- !app_assoc.
           ++ exists [Call_wait tx]. cbn [snd calls].
              now rewrite <- !app_assoc.
Qed.

Context {exchange : Exchange W}.

(** X24. The client an instance of the package creates agrees with
    [isGnosisSafe]: for an instance built by the constructor, whenever the
    probe on the signer's address and the instance's rpcUrl resolves to b
    and [createClient] succeeds in the same world, the client signs as
    POLY_GNOSIS_SAFE with the signer as funder when b is true, and as EOA
    without funder when b is false.  It talks to the URL the options
    named, the empty string included, and to the default URL when they
    named none. *)
Theorem createClient_agrees_with_probe
  (new_Wallet : string -> JsonRpcProvider -> JsError + Wallet)
  (new_V5Wallet : string -> string -> JsError + Wallet)
  (CTFContract : string) (opts : polymarket_class.PolymarketOptions)
  (this this' : package_index.Instance) (o : Outside (Desk W))
  (log : list Call) (b : bool) (created : ClobClient) :
  package_index.constructor new_Wallet new_V5Wallet CTFContract opts
  = inr this ->
  let address := address (polymarket.signer (package_index.fields this)) in
  fst (run (safe.isGnosisSafe address (polymarket_class.rpcUrl opts))
           {| world := chain (world o); calls := log |}) = inr b ->
  fst (run (package_index.createClient this) o) = inr (created, this') ->
  client_signatureType created = (if b then POLY_GNOSIS_SAFE else EOA)
  /\ funderAddress created = (if b then Some address else None)
  /\ client_host created
     = Some (match polymarket_class.cLobHttpUrl opts with
             | Some url => url
             | None => "https://clob.polymarket.com"
             end).
Proof.
  intros Hnew address Hprobe Hcreate. subst address.
  unfold package_index.constructor in Hnew.
  destruct (new_Wallet _ _) as [e | signer]; [discriminate Hnew|].
  destruct (new_V5Wallet _ _) as [e | clobSigner]; [discriminate Hnew|].
  injection Hnew as <-.
  pose proof (ClientLaws.run_package_createClient
                {| package_index.options :=
                     {| polymarket_class.rpcUrl := polymarket_class.rpcUrl opts;
                        polymarket_class.privateKey :=
                          polymarket_class.privateKey opts;
                        polymarket_class.cLobHttpUrl :=
                          Some (polymarket_class.nullish_or
                                  (polymarket_class.cLobHttpUrl opts)
                                  CLobHttpUrl) |};
                   package_index.fields :=
                     {| polymarket.provider :=
                          getJsonRpcProvider (polymarket_class.rpcUrl opts);
                        polymarket.signer := signer;
                        polymarket.ctfContract :=
                          {| contract_address := CTFContract;
                             abi := CTF_ABI;
                             contract_signer := signer |} |};
                   package_index.clobSigner := clobSigner;
                   package_index.client := None |} o) as Hrun.
  cbv zeta in Hrun. rewrite Hrun in Hcreate. clear Hrun.
  cbn [package_index.fields polymarket.provider polymarket.signer] in *.
  unfold safe.isGnosisSafe, run in Hprobe. cbn in Hprobe.
  destruct (getCode (getJsonRpcProvider (polymarket_class.rpcUrl opts))
                    (Host.address signer) (chain (world o)))
    as [[e | code] w1]; cbn in Hprobe; [discriminate Hprobe|].
  injection Hprobe as <-.
  destruct (createOrDeriveApiKey _ w1) as [[e | creds] w2];
    [discriminate Hcreate|].
  cbn [fst] in Hcreate. injection Hcreate as <- _.
  cbn [client_signatureType funderAddress client_host bootstrap_client
       package_index.options package_index.fields polymarket.signer
       polymarket_class.cLobHttpUrl].
  destruct (code =? "0x"), (polymarket_class.cLobHttpUrl opts);
    (split; [reflexivity | split; reflexivity]).
Qed.

End WithWorld.

Lemma approvalAll_copies_witness :
  run (package_index.approvalAll (host := chainWorld true 1) client)
      (fresh false)
  = run (polymarket.approvalAll (host := chainWorld true 1) client)
        (fresh false)
  /\ exists later : list Call,
      calls (snd (run (package_index.approvalAll
                         (host := scriptedChain
                                    (inr {| gasPrice := Some 0%Z |})
                                    (inr {| hash := "0xtx" |})
                                    (inr {| status := 1 |}) (inr true))
                         client)
                      (fresh tt)))
      = ([Call_getFeeData (polymarket.provider client);
          Call_setApprovalForAll (polymarket.ctfContract client)
            polymarketExchange true
            {| override_gasPrice := 50000000000; gasLimit := 100000 |}]
         ++ later)%list.
Proof.
  split.
  - apply (proj1 (approvalAll_copies (host := chainWorld true 1) client
                    (fresh false))).
    intros w1. discriminate.
  - apply (proj1 (proj2 (approvalAll_copies
                           (host := scriptedChain
                                      (inr {| gasPrice := Some 0%Z |})
                                      (inr {| hash := "0xtx" |})
                                      (inr {| status := 1 |}) (inr true))
                           client (fresh tt))
                        tt eq_refl)).
Defined.

Lemma createClient_agrees_with_probe_witness :
  client_signatureType safe_client = POLY_GNOSIS_SAFE
  /\ funderAddress safe_client = Some "0xwallet"
  /\ client_host safe_client = Some "https://clob.polymarket.com".
Proof.
  exact (createClient_agrees_with_probe
           (host := cannedWorld (inl (Error "offline")) (inr "0x1234"))
           (exchange := cannedExchange (inr test_creds)
                          (inl (Error "unsupported"))
                          (inl (Error "unsupported")))
           test_Wallet test_V5Wallet "0xctf" test_options
           package_instance _ (quiet tt) [] true safe_client
           eq_refl eq_refl eq_refl).
Defined.

End CopiesLaws.

(* ===================================================================== *)
(** ** The body of the request *)
(* ===================================================================== *)

Module BodyLaws.
Import JsString types config Host utils safe Vocabulary Fixtures.

Lemma quoteCodeUnit_plain (c : ascii) :
  isPlainChar c = true -> JSON.quoteCodeUnit c = String c EmptyString.
Proof.
  destruct c as [[] [] [] [] [] [] [] []]; vm_compute; congruence.
Qed.

Lemma quoteBody_plain (s : string) :
  isPlain s = true -> JSON.quoteBody s = s.
Proof.
  induction s as [|c s IH]; simpl; [reflexivity|].
  intros H. apply andb_true_iff in H as [Hc Hs].
  now rewrite (quoteCodeUnit_plain c Hc), (IH Hs).
Qed.

Lemma quote_plain (s : string) : isPlain s = true -> JSON.quote s = quoted s.
Proof. intros H. unfold JSON.quote, quoted. now rewrite quoteBody_plain. Qed.

Section WithWorld.
Context {W : Type} {host : World W}.

(** X25. [postJsonRpc] posts one request with the header Content-Type:
    application/json, and for a target and call data without quotes,
    backslashes or control characters (hexadecimal strings are such) and
    an id that is a safe integer (magnitude at most 2^53 - 1; the
    derivation's is 1) the body is the JSON text with the members in the
    order jsonrpc, method, params, id and the two strings copied as they
    are. *)
Theorem request_body_text (rpcUrl factoryAddress callData : string) (n : Z)
  (o : Outside W) :
  isPlain factoryAddress = true ->
  isPlain callData = true ->
  (Z.abs n <= 9007199254740991)%Z ->
  calls (snd (run (postJsonRpc rpcUrl
                     {| jsonrpc := "2.0";
                        method := "eth_call";
                        params := ({| to := factoryAddress; data := callData |},
                                   "latest");
                        id := n |}) o))
  = (calls o
     ++ [Call_fetch rpcUrl
           {| init_method := "POST";
              headers := [("Content-Type", "application/json")];
              body := request_text factoryAddress callData n |}])%list.
Proof.
  intros Hto Hdata _.
  rewrite Derivation.calls_postJsonRpc. do 3 f_equal.
  unfold post_init. f_equal.
  unfold JsonRpcRequest_toJson, JSON.stringify, request_text.
  cbn [jsonrpc method params id to data fst snd].
  rewrite (quote_plain _ Hto), (quote_plain _ Hdata).
  change (JSON.quote "jsonrpc") with (quoted "jsonrpc").
  change (JSON.quote "2.0") with (quoted "2.0").
  change (JSON.quote "method") with (quoted "method").
  change (JSON.quote "eth_call") with (quoted "eth_call").
  change (JSON.quote "params") with (quoted "params").
  change (JSON.quote "to") with (quoted "to").
  change (JSON.quote "data") with (quoted "data").
  change (JSON.quote "latest") with (quoted "latest").
  change (JSON.quote "id") with (quoted "id").
  repeat rewrite CodecLaws.append_assoc. reflexivity.
Qed.

End WithWorld.

Lemma request_body_text_witness :
  calls (snd (run (postJsonRpc
                     (host := cannedWorld (inr fixture_response) (inr "0x"))
                     "https://rpc.example"
                     (eth_call_request
                        "0xaacFeEa03eb1561C4e67d661e40682Bd20E3541b"
                        "0x12345678000000000000000000000000abc0000000000000000000000000000000000def"))
                  (fresh tt)))
  = [Call_fetch "https://rpc.example"
       {| init_method := "POST";
          headers := [("Content-Type", "application/json")];
          body :=
            request_text
              "0xaacFeEa03eb1561C4e67d661e40682Bd20E3541b"
              "0x12345678000000000000000000000000abc0000000000000000000000000000000000def"
              1 |}].
Proof.
  exact (request_body_text
           (host := cannedWorld (inr fixture_response) (inr "0x"))
           "https://rpc.example"
           "0xaacFeEa03eb1561C4e67d661e40682Bd20E3541b"
           "0x12345678000000000000000000000000abc0000000000000000000000000000000000def"
           1 (fresh tt) eq_refl eq_refl ltac:(simpl; lia)).
Defined.

End BodyLaws.
